(** * narps_open.runner: a shallow embedding of [PipelineRunner]

    The development follows [src/narps_open/runner.py].  Python objects are
    modelled by records and inductive types, exceptions by an explicit
    [result] type, mutation of the runner by state passing, and the calls
    made to external collaborators (the pipeline's stage producers, nipype's
    [Workflow.run], [print]) by a trace of events. *)

From Stdlib Require Import ZArith Lia Ascii String DecimalString DecimalPos.
From stdpp Require Import base decidable option list gmap strings.

Set Warnings "-register-all".

Local Open Scope Z_scope.
Local Open Scope string_scope.

(** ** Exceptions and results *)

(** The exception classes the runner raises or lets through, with their
    message.  [OtherError] stands for anything raised by a collaborator
    (a failing workflow, a failing import). *)
Inductive Exception : Type :=
  | KeyError (msg : string)
  | NotImplementedError (msg : string)
  | AttributeError (msg : string)
  | ValueError (msg : string)
  | IndexError (msg : string)
  | OtherError (cls msg : string).

Inductive result (A : Type) : Type :=
  | Ok (a : A)
  | Raise (e : Exception).
Arguments Ok {A} a.
Arguments Raise {A} e.

Definition bind_result {A B : Type} (r : result A) (k : A -> result B) : result B :=
  match r with
  | Ok a => k a
  | Raise e => Raise e
  end.

(** A computation over a mutable state [S] that may raise: the state reached
    is returned in both cases, as the mutations made before a [raise] stay. *)
Definition M (S A : Type) : Type := S -> S * result A.

Definition ret {S A : Type} (a : A) : M S A := fun s => (s, Ok a).
Definition raise {S A : Type} (e : Exception) : M S A := fun s => (s, Raise e).
Definition bind {S A B : Type} (m : M S A) (k : A -> M S B) : M S B :=
  fun s => match m s with
           | (s', Ok a) => k a s'
           | (s', Raise e) => (s', Raise e)
           end.

Notation "'let!' x ':=' m 'in' k" := (bind m (fun x => k))
  (at level 10, x name, m at level 100, k at level 200).
Notation "'run!' m 'in' k" := (bind m (fun _ => k))
  (at level 10, m at level 100, k at level 200).

(** ** The Python built-ins used on subject identifiers *)

Module Py.

(** A raw subject identifier as callers pass it: a [str] (command line) or
    an [int]. *)
Inductive Raw : Type :=
  | RawStr (s : string)
  | RawInt (n : Z).

(** The white space that [int] skips around a literal: tab, line feed,
    vertical tab, form feed, carriage return and space. *)
Definition is_space (a : ascii) : bool :=
  let n := Ascii.nat_of_ascii a in
  ((9 <=? n)%nat && (n <=? 13)%nat) || (n =? 32)%nat.

Definition digit_of (a : ascii) : option Z :=
  let n := Ascii.nat_of_ascii a in
  if ((48 <=? n)%nat && (n <=? 57)%nat)%bool then Some (Z.of_nat n - 48) else None.

Fixpoint lstrip (s : string) : string :=
  match s with
  | String a s' => if is_space a then lstrip s' else s
  | EmptyString => EmptyString
  end.

Definition strip (s : string) : string :=
  String.rev (lstrip (String.rev (lstrip s))).

(** Digits of a base-10 literal, most significant first; a single
    underscore is accepted between two digits.  [after_digit] tells whether
    the previous character was a digit. *)
Fixpoint digits (acc : Z) (after_digit : bool) (s : string) : option Z :=
  match s with
  | EmptyString => if after_digit then Some acc else None
  | String a s' =>
      match digit_of a with
      | Some d => digits (10 * acc + d) true s'
      | None =>
          if (Ascii.eqb a "_" && after_digit)%bool
          then match s' with
               | String b _ =>
                   match digit_of b with
                   | Some _ => digits acc false s'
                   | None => None
                   end
               | EmptyString => None
               end
          else None
      end
  end.

(** The default of [sys.get_int_max_str_digits()]: conversions between
    [int] and [str] raise beyond that many digits. *)
Definition int_max_str_digits : nat := 4300.

Definition invalid_literal : Exception :=
  ValueError "invalid literal for int() with base 10".
Definition exceeds_limit : Exception :=
  ValueError "Exceeds the limit (4300 digits) for integer string conversion".

Fixpoint count_digits (s : string) : nat :=
  match s with
  | EmptyString => O
  | String a s' =>
      match digit_of a with
      | Some _ => S (count_digits s')
      | None => count_digits s'
      end
  end.

(** The digits and underscores at the head of a string, and what follows
    them. *)
Fixpoint span_run (s : string) : string * string :=
  match s with
  | EmptyString => (EmptyString, EmptyString)
  | String a s' =>
      if (match digit_of a with Some _ => true | None => false end
          || Ascii.eqb a "_")%bool
      then let '(run, rest) := span_run s' in (String a run, rest)
      else (EmptyString, s)
  end.

(** What follows the sign: the digits are scanned, their number is checked
    against the limit, and nothing may follow them. *)
Definition int_of_literal (s : string) : result Z :=
  let '(run, rest) := span_run s in
  match digits 0 false run with
  | None => Raise invalid_literal
  | Some n =>
      if (int_max_str_digits <? count_digits run)%nat then Raise exceeds_limit
      else match rest with
           | EmptyString => Ok n
           | String _ _ => Raise invalid_literal
           end
  end.

(** [int(s)] for a [str] in base 10: surrounding white space, an optional
    sign, then the digits.  The strings are ASCII strings (Python also
    reads the decimal digits and the white space of other scripts). *)
Definition int_of_str (s : string) : result Z :=
  match strip s with
  | String "-" s' => bind_result (int_of_literal s') (fun n => Ok (- n))
  | String "+" s' => int_of_literal s'
  | s' => int_of_literal s'
  end.

(** [int(x)] *)
Definition int (x : Raw) : result Z :=
  match x with
  | RawStr s => int_of_str s
  | RawInt n => Ok n
  end.

(** The decimal writing of an integer. *)
Definition decimal (n : Z) : string :=
  NilZero.string_of_int (Z.to_int n).

(** [str(n)] for an [int]: the decimal writing, refused beyond the limit on
    the number of digits. *)
Definition str_of_int (n : Z) : result string :=
  if (int_max_str_digits <? count_digits (decimal n))%nat then Raise exceeds_limit
  else Ok (decimal n).

(** [f'{x}'] in the message of an invalid subject: the setter formats the
    identifier only after [str(int(x))] has returned, so that the decimal
    writing of an [int] is within the limit there. *)
Definition format (x : Raw) : string :=
  match x with
  | RawStr s => s
  | RawInt n => decimal n
  end.

Fixpoint zeros (n : nat) : string :=
  match n with
  | O => EmptyString
  | S n' => String "0" (zeros n')
  end.

(** [s.zfill(width)]: zeros are inserted after a leading sign. *)
Definition zfill (width : nat) (s : string) : string :=
  let fill := zeros (width - String.length s) in
  match s with
  | String "+" s' => String "+" (fill ++ s')
  | String "-" s' => String "-" (fill ++ s')
  | _ => fill ++ s
  end.

(** [list(dict.fromkeys(l))]: the keys of a dict keep the order of their
    first insertion, and inserting a key again does not move it. [seen] is
    the key list built so far. *)
Fixpoint fromkeys_into (seen l : list string) : list string :=
  match l with
  | [] => seen
  | x :: l' =>
      if bool_decide (x ∈ seen) then fromkeys_into seen l'
      else fromkeys_into (seen ++ [x])%list l'
  end.

Definition fromkeys (l : list string) : list string := fromkeys_into [] l.

(** The state of the [random] module's generator: the stream of 53-bit
    integers it will produce; [random()] is the next one over 2^53. *)
Definition Rng : Type := nat -> Z.

Definition next53 (g : Rng) : Z * Rng :=
  (g O mod 2 ^ 53, fun i => g (S i)).

(** Rounding of a non-negative number [p / 2^53] to the nearest float: [p]
    is kept when it has at most 53 bits, otherwise it is rounded to 53
    significant bits, ties going to the even one. *)
Definition round53 (p : Z) : Z :=
  let e := Z.log2 p - 52 in
  if (e <=? 0)%Z then p
  else
    let q := p / 2 ^ e in
    let r := p mod 2 ^ e in
    let up := ((2 ^ (e - 1) <? r)%Z || ((r =? 2 ^ (e - 1))%Z && Z.odd q))%bool in
    (if up then q + 1 else q) * 2 ^ e.

(** [floor(random() * n)] where [random()] is [m / 2^53] and [n] the float
    of a length (exact, lengths being far below 2^53): the float product,
    then its integer part. *)
Definition floor_mul (m n : Z) : Z := round53 (m * n) / 2 ^ 53.

(** [random.choices(population, k=k)] without weights:
    [[population[floor(random() * n)] for _ in range(k)]].  An empty
    population raises as soon as one element is asked for. *)
Fixpoint choices_loop {A : Type} (population : list A) (k : nat) (g : Rng)
  : result (list A) * Rng :=
  match k with
  | O => (Ok [], g)
  | S k' =>
      let '(m, g') := next53 g in
      let i := Z.to_nat (floor_mul m (Z.of_nat (length population))) in
      match population !! i with
      | None => (Raise (IndexError "list index out of range"), g')
      | Some x =>
          match choices_loop population k' g' with
          | (Ok l, g'') => (Ok (x :: l), g'')
          | (Raise e, g'') => (Raise e, g'')
          end
      end
  end.

Definition choices {A : Type} (population : list A) (k : Z) (g : Rng)
  : result (list A) * Rng :=
  choices_loop population (Z.to_nat k) g.

End Py.

(** ** Objects handled by the runner *)

(** A [nipype.Workflow], known to the runner by identity only. *)
Inductive Workflow : Type :=
  | mkWorkflow (name : string).

(** What a stage producer of a pipeline may return: [None], a workflow, a
    list of objects, or an object of some other class. *)
Inductive PyObj : Type :=
  | PyNone
  | PyWorkflow (w : Workflow)
  | PyList (items : list PyObj)
  | PyOther (repr : string).

(** [isinstance(o, Workflow)] *)
Definition isinstance_Workflow (o : PyObj) : bool :=
  match o with
  | PyWorkflow _ => true
  | _ => false
  end.

(** A pipeline object ([narps_open.pipelines.Pipeline]): its subject list
    and its methods, each a function of the subject list the object holds
    when the method is called. *)
Record Pipeline : Type := mkPipeline {
  subject_list : list string;
  preprocessing_impl : list string -> PyObj;
  run_level_analysis_impl : list string -> PyObj;
  subject_level_analysis_impl : list string -> PyObj;
  group_level_analysis_impl : list string -> PyObj;
  preprocessing_outputs_impl : list string -> list string;
  run_level_outputs_impl : list string -> list string;
  subject_level_outputs_impl : list string -> list string;
  group_level_outputs_impl : list string -> list string
}.

Definition get_preprocessing (p : Pipeline) : PyObj :=
  preprocessing_impl p (subject_list p).
Definition get_run_level_analysis (p : Pipeline) : PyObj :=
  run_level_analysis_impl p (subject_list p).
Definition get_subject_level_analysis (p : Pipeline) : PyObj :=
  subject_level_analysis_impl p (subject_list p).
Definition get_group_level_analysis (p : Pipeline) : PyObj :=
  group_level_analysis_impl p (subject_list p).
Definition get_preprocessing_outputs (p : Pipeline) : list string :=
  preprocessing_outputs_impl p (subject_list p).
Definition get_run_level_outputs (p : Pipeline) : list string :=
  run_level_outputs_impl p (subject_list p).
Definition get_subject_level_outputs (p : Pipeline) : list string :=
  subject_level_outputs_impl p (subject_list p).
Definition get_group_level_outputs (p : Pipeline) : list string :=
  group_level_outputs_impl p (subject_list p).

(** [pipeline.subject_list = l] *)
Definition set_subject_list (l : list string) (p : Pipeline) : Pipeline :=
  mkPipeline l
    (preprocessing_impl p) (run_level_analysis_impl p)
    (subject_level_analysis_impl p) (group_level_analysis_impl p)
    (preprocessing_outputs_impl p) (run_level_outputs_impl p)
    (subject_level_outputs_impl p) (group_level_outputs_impl p).

(** The attributes of a [PipelineRunner]. *)
Record PipelineRunner : Type := mkRunner {
  _pipeline : option Pipeline;
  _team_id : string
}.

(** The four stage producers, named for the trace. *)
Inductive Stage : Type :=
  | Preprocessing
  | RunLevel
  | SubjectLevel
  | GroupLevel.

(** The arguments of a call to [Workflow.run]: none, or a plugin name with
    [plugin_args={'n_procs': n}]. *)
Inductive RunArgs : Type :=
  | RunDefault
  | RunPlugin (plugin : string) (n_procs : Z).

(** What [start] does to the outside, in order. *)
Inductive Event : Type :=
  | Printed (team_id : string) (subjects : list string)
  | Produced (s : Stage)
  | Ran (w : Workflow) (a : RunArgs).

(** The error messages of [runner.py]; the names are those of the
    specification's error taxonomy. *)
Definition UnknownTeamError (team_id : string) : Exception :=
  KeyError ("Wrong team ID : " ++ team_id).
Definition PipelineNotImplementedError (team_id : string) : Exception :=
  NotImplementedError ("Pipeline not implemented for team : " ++ team_id).
Definition InvalidSubjectError (subject_id : Py.Raw) : Exception :=
  AttributeError ("Subject ID " ++ Py.format subject_id ++ " is not valid").
Definition InvalidScopeError : Exception :=
  AttributeError "first_level_only and group_level_only cannot both be True".
Definition InvalidWorkUnitError : Exception :=
  AttributeError "Workflow must be of type nipype.Workflow".

(** Reading [subject_list] (or any attribute) of [self._pipeline] when it is
    [None]. *)
Definition NoneTypeError : Exception :=
  AttributeError "'NoneType' object has no attribute".

(** ** The runner *)

Section Runner.

(** [narps_open.pipelines.implemented_pipelines]: team ID to the name of
    the pipeline class, or to [None]. *)
Variable implemented_pipelines : gmap string (option string).

(** [getattr(import_module('narps_open.pipelines.team_' + team), cls)()]:
    the instance built by the pipeline class, or what the import, the
    lookup or the constructor raised. *)
Variable class_type : string -> string -> result Pipeline.

(** [narps_open.data.participants] *)
Variable get_all_participants : list string.
Variable get_participants : string -> list string.
Variable get_participants_subset : Z -> list string.

(** *** Cohort selection *)

(** [str(int(subject_id)).zfill(3)] *)
Definition canonical (subject_id : Py.Raw) : result string :=
  bind_result (Py.int subject_id) (fun n =>
    bind_result (Py.str_of_int n) (fun s => Ok (Py.zfill 3 s))).

(** The [for] loop of the [subjects] setter. *)
Fixpoint check_subjects (value : list Py.Raw) : result unit :=
  match value with
  | [] => Ok tt
  | subject_id :: rest =>
      bind_result (canonical subject_id) (fun c =>
        if bool_decide (c ∈ get_all_participants)
        then check_subjects rest
        else Raise (InvalidSubjectError subject_id))
  end.

(** The list comprehension of the [subjects] setter. *)
Fixpoint canonical_all (value : list Py.Raw) : result (list string) :=
  match value with
  | [] => Ok []
  | subject_id :: rest =>
      bind_result (canonical subject_id) (fun c =>
        bind_result (canonical_all rest) (fun cs => Ok (c :: cs)))
  end.

(** [self._pipeline.subject_list = l], [l] already evaluated. *)
Definition assign_subject_list (l : list string) : M PipelineRunner unit :=
  fun self =>
    match _pipeline self with
    | None => (self, Raise NoneTypeError)
    | Some p => (mkRunner (Some (set_subject_list l p)) (_team_id self), Ok tt)
    end.

(** [runner.subjects = value] *)
Definition subjects_setter (value : list Py.Raw) : M PipelineRunner unit :=
  fun self =>
    match check_subjects value with
    | Raise e => (self, Raise e)
    | Ok _ =>
        match canonical_all value with
        | Raise e => (self, Raise e)
        | Ok ids => assign_subject_list (Py.fromkeys ids) self
        end
    end.

(** [runner.random_nb_subjects = value]; [g] is the state of the random
    generator. *)
Definition random_nb_subjects_setter (value : Z) (g : Py.Rng)
  : M PipelineRunner unit :=
  fun self =>
    match fst (Py.choices (get_participants (_team_id self)) value g) with
    | Raise e => (self, Raise e)
    | Ok l => assign_subject_list l self
    end.

(** [runner.nb_subjects = value] *)
Definition nb_subjects_setter (value : Z) : M PipelineRunner unit :=
  assign_subject_list (get_participants_subset value).

(** [runner.subjects] *)
Definition subjects (self : PipelineRunner) : result (list string) :=
  match _pipeline self with
  | None => Raise NoneTypeError
  | Some p => Ok (subject_list p)
  end.

(** *** Team assignment *)

(** [runner.team_id = value] *)
Definition team_id_setter (value : string) : M PipelineRunner unit :=
  fun self =>
    let self := mkRunner (_pipeline self) value in
    match implemented_pipelines !! _team_id self with
    | None => (self, Raise (UnknownTeamError (_team_id self)))
    | Some None => (self, Raise (PipelineNotImplementedError (_team_id self)))
    | Some (Some cls) =>
        match class_type (_team_id self) cls with
        | Raise e => (self, Raise e)
        | Ok p => (mkRunner (Some p) (_team_id self), Ok tt)
        end
    end.

(** The body of [__init__]: [_pipeline] is set to [None], then the setter
    of [team_id] runs ([_team_id] does not exist before it, the setter
    writes it first). *)
Definition init (team_id : string) : PipelineRunner * result unit :=
  team_id_setter team_id (mkRunner None team_id).

(** [PipelineRunner(team_id)]: the caller gets the object only when
    [__init__] returns. *)
Definition new_PipelineRunner (team_id : string) : result PipelineRunner :=
  match init team_id with
  | (self, Ok _) => Ok self
  | (_, Raise e) => Raise e
  end.

End Runner.

(** ** Starting a pipeline *)

Section Start.

(** Whatever the workflows read and write (files, processes). *)
Variable World : Type.

(** [workflow.run(...)] in nipype: blocks until the graph has been
    executed, changes the world, and raises when a node fails. *)
Variable nipype_run : Workflow -> RunArgs -> World -> World * result unit.

(** The state [start] works on: the world and the trace of what was done
    to it so far, oldest event first. *)
Record Sys : Type := mkSys {
  world : World;
  trace : list Event
}.

Definition emit (e : Event) : M Sys unit :=
  fun s => (mkSys (world s) (trace s ++ [e])%list, Ok tt).

(** A call to a stage producer of the pipeline. *)
Definition produce (s : Stage) (p : Pipeline) : M Sys PyObj :=
  run! emit (Produced s) in
  ret (match s with
       | Preprocessing => get_preprocessing p
       | RunLevel => get_run_level_analysis p
       | SubjectLevel => get_subject_level_analysis p
       | GroupLevel => get_group_level_analysis p
       end).

(** "Generate workflow list" *)
Definition generate_workflow_list (first_level_only group_level_only : bool)
    (p : Pipeline) : M Sys (list PyObj) :=
  let workflow_list : list PyObj := [] in
  let! workflow_list :=
    (if negb group_level_only then
       let! w1 := produce Preprocessing p in
       let! w2 := produce RunLevel p in
       let! w3 := produce SubjectLevel p in
       ret (workflow_list ++ [w1; w2; w3])%list
     else ret workflow_list) in
  let! workflow_list :=
    (if negb first_level_only then
       let! w4 := produce GroupLevel p in
       ret (workflow_list ++ [w4])%list
     else ret workflow_list) in
  ret workflow_list.

(** The two branches on [nb_procs]. *)
Definition run_args (nb_procs : Z) : RunArgs :=
  if (1 <? nb_procs)%Z then RunPlugin "MultiProc" nb_procs else RunDefault.

Definition run_workflow (nb_procs : Z) (w : Workflow) : M Sys unit :=
  fun s =>
    let '(world', r) := nipype_run w (run_args nb_procs) (world s) in
    (mkSys world' (trace s ++ [Ran w (run_args nb_procs)])%list, r).

(** The type check followed by the run, shared by both branches. *)
Definition check_and_run (nb_procs : Z) (workflow : PyObj) : M Sys unit :=
  match workflow with
  | PyWorkflow w => run_workflow nb_procs w
  | _ => raise InvalidWorkUnitError
  end.

(** [for sub_workflow in workflow: ...] *)
Fixpoint launch_sub_workflows (nb_procs : Z) (workflow : list PyObj) : M Sys unit :=
  match workflow with
  | [] => ret tt
  | sub_workflow :: rest =>
      run! check_and_run nb_procs sub_workflow in
      launch_sub_workflows nb_procs rest
  end.

(** The body of [for workflow in workflow_list]. *)
Definition launch_workflow (nb_procs : Z) (workflow : PyObj) : M Sys unit :=
  match workflow with
  | PyNone => ret tt
  | PyList items => launch_sub_workflows nb_procs items
  | _ => check_and_run nb_procs workflow
  end.

(** "Launch workflows" *)
Fixpoint launch_workflows (nb_procs : Z) (workflow_list : list PyObj) : M Sys unit :=
  match workflow_list with
  | [] => ret tt
  | workflow :: rest =>
      run! launch_workflow nb_procs workflow in
      launch_workflows nb_procs rest
  end.

(** [runner.start(first_level_only, group_level_only)], with
    [Configuration()['runner']['nb_procs']] as [nb_procs]. *)
Definition start (self : PipelineRunner) (nb_procs : Z)
    (first_level_only group_level_only : bool) : M Sys unit :=
  match _pipeline self with
  | None => raise NoneTypeError
  | Some p =>
      run! emit (Printed (_team_id self) (subject_list p)) in
      if (first_level_only && group_level_only)%bool
      then raise InvalidScopeError
      else
        let! workflow_list :=
          generate_workflow_list first_level_only group_level_only p in
        launch_workflows nb_procs workflow_list
  end.

End Start.

(** ** Checking outputs *)

(** The file system as [os.path.isfile] sees it. *)
Definition FileSystem : Type := string -> bool.

(** [[f for f in files if not isfile(f)]] *)
Definition missing_files (isfile : FileSystem) (files : list string) : list string :=
  filter (fun f => negb (isfile f) = true) files.

(** [runner.get_missing_first_level_outputs()].  [files += ...] extends in
    place the list that [get_preprocessing_outputs] returned; the pipeline is
    taken to build that list anew at each call, as its methods are functions
    of the subject list here. *)
Definition get_missing_first_level_outputs (self : PipelineRunner)
    (isfile : FileSystem) : result (list string) :=
  match _pipeline self with
  | None => Raise NoneTypeError
  | Some p =>
      let files := get_preprocessing_outputs p in
      let files := (files ++ get_run_level_outputs p)%list in
      let files := (files ++ get_subject_level_outputs p)%list in
      Ok (missing_files isfile files)
  end.

(** [runner.get_missing_group_level_outputs()] *)
Definition get_missing_group_level_outputs (self : PipelineRunner)
    (isfile : FileSystem) : result (list string) :=
  match _pipeline self with
  | None => Raise NoneTypeError
  | Some p =>
      let files := get_group_level_outputs p in
      Ok (missing_files isfile files)
  end.

Arguments mkSys {World} world trace.
Arguments world {World} s.
Arguments trace {World} s.
Arguments emit {World} e s.
Arguments produce {World} s p _.
Arguments generate_workflow_list {World} first_level_only group_level_only p _.
Arguments run_workflow {World} nipype_run nb_procs w s.
Arguments check_and_run {World} nipype_run nb_procs workflow _.
Arguments launch_sub_workflows {World} nipype_run nb_procs workflow _.
Arguments launch_workflow {World} nipype_run nb_procs workflow _.
Arguments launch_workflows {World} nipype_run nb_procs workflow_list _.
Arguments start {World} nipype_run self nb_procs first_level_only group_level_only _.

(** ** Reference definitions, written from the specification *)

(** Duplicates collapsed, the order of first occurrences kept. *)
Fixpoint first_occurrences (l : list string) : list string :=
  match l with
  | [] => []
  | x :: l' => x :: filter (fun y => y <> x) (first_occurrences l')
  end.

(** The expected files that are absent, in the order they are expected. *)
Fixpoint absent_files (isfile : FileSystem) (files : list string) : list string :=
  match files with
  | [] => []
  | f :: files' =>
      if isfile f then absent_files isfile files'
      else f :: absent_files isfile files'
  end.

(** The workflows of a stage list whose elements all conform, in the order
    the launch loop meets them. *)
Definition units_of_stage (workflow : PyObj) : list Workflow :=
  match workflow with
  | PyWorkflow w => [w]
  | PyList items =>
      flat_map (fun o => match o with PyWorkflow w => [w] | _ => [] end) items
  | _ => []
  end.

Definition units_of (workflow_list : list PyObj) : list Workflow :=
  flat_map units_of_stage workflow_list.

(** A stage realization the launch loop accepts: [None], a workflow, or a
    list of workflows. *)
Definition conforming (workflow : PyObj) : bool :=
  match workflow with
  | PyNone => true
  | PyWorkflow _ => true
  | PyList items => forallb isinstance_Workflow items
  | PyOther _ => false
  end.

(** The events a launch may add to the trace: runs with the arguments that
    [nb_procs] selects. *)
Definition run_event (nb_procs : Z) (e : Event) : Prop :=
  exists w, e = Ran w (run_args nb_procs).

(** [s'] is [s] after some such runs. *)
Definition extends_by_runs {World : Type} (nb_procs : Z) (s s' : Sys World) : Prop :=
  exists evs, trace s' = (trace s ++ evs)%list /\ Forall (run_event nb_procs) evs.

(** ** A small installation, used to run the definitions *)

Module Demo.

Definition implemented_pipelines : gmap string (option string) :=
  <["2T6S" := Some "PipelineTeam2T6S"]> (<["08MQ" := None]> ∅).

Definition all_participants : list string := ["001"; "002"; "003"; "004"].

(** Team 2T6S keeps everyone but participant 003. *)
Definition participants (team_id : string) : list string :=
  ["001"; "002"; "004"].

Definition participants_subset (n : Z) : list string :=
  take (Z.to_nat n) all_participants.

Definition w_pre : Workflow := mkWorkflow "preprocessing".
Definition w_run : Workflow := mkWorkflow "run_level".
Definition w_sub : Workflow := mkWorkflow "subject_level".
Definition w_grp1 : Workflow := mkWorkflow "group_level_1".
Definition w_grp2 : Workflow := mkWorkflow "group_level_2".

Definition pipeline : Pipeline :=
  mkPipeline []
    (fun _ => PyNone)
    (fun _ => PyWorkflow w_run)
    (fun _ => PyWorkflow w_sub)
    (fun _ => PyList [PyWorkflow w_grp1; PyWorkflow w_grp2])
    (fun _ => [])
    (fun subjects => map (fun s => "run/" ++ s) subjects)
    (fun subjects => map (fun s => "sub/" ++ s) subjects)
    (fun _ => ["group/out.nii"]).

(** A pipeline whose group level returns a list with a wrong element. *)
Definition wrong_pipeline : Pipeline :=
  mkPipeline ["001"]
    (fun _ => PyNone)
    (fun _ => PyNone)
    (fun _ => PyNone)
    (fun _ => PyList [PyWorkflow w_grp1; PyOther "a string"; PyWorkflow w_grp2])
    (fun _ => []) (fun _ => []) (fun _ => []) (fun _ => []).

Definition class_type (team_id cls : string) : result Pipeline := Ok pipeline.

Definition runner : PipelineRunner := mkRunner (Some pipeline) "2T6S".

(** Workflows that always succeed and leave nothing but the trace. *)
Definition run_ok (w : Workflow) (a : RunArgs) (x : unit) : unit * result unit :=
  (x, Ok tt).

Definition s0 : Sys unit := mkSys tt [].

(** A generator whose first four draws are 0, 1/4, 1/2 and 3/4. *)
Definition rng : Py.Rng := fun i => Z.of_nat i * 2 ^ 51.

(** A file system on which only the run-level output of subject 001
    is there. *)
Definition isfile : FileSystem := fun f => String.eqb f "run/001".

End Demo.

(** ** The command line of the runner *)

Module Main.

(** The namespace that [parser.parse_args()] returns.  [subjects],
    [rsubjects] and [nsubjects] come from one required, mutually exclusive
    group, [group] and [first] from another one. *)
Record Namespace : Type := mkNamespace {
  team : string;
  rsubjects : option string;
  subjects : option (list string);
  nsubjects : option string;
  group : bool;
  first : bool;
  check : bool
}.

(** The lines printed with [--check]. *)
Inductive Output : Type :=
  | MissingHeader (team : string) (nb_subjects : nat)
  | FirstLevel (missing : list string)
  | GroupLevel (missing : list string).

(** [int(None)] *)
Definition int_of_None : Exception :=
  OtherError "TypeError" "int() argument must be a string, a bytes-like object or a real number, not 'NoneType'".

Section Script.

Variable implemented_pipelines : gmap string (option string).
Variable class_type : string -> string -> result Pipeline.
Variable get_all_participants : list string.
Variable get_participants : string -> list string.
Variable get_participants_subset : Z -> list string.

(** The four statements on [runner.pipeline.directories] (dataset and
    results directories from the configuration, output and working
    directories from the team ID): the pipeline whose methods read the
    directories so set. *)
Variable set_directories : string -> Pipeline -> Pipeline.

(** [Configuration()['runner']['nb_procs']] *)
Variable nb_procs : Z.

Variable World : Type.
Variable nipype_run : Workflow -> RunArgs -> World -> World * result unit.

(** "Initialize a PipelineRunner" *)
Definition initialize (arguments : Namespace) : result PipelineRunner :=
  bind_result (new_PipelineRunner implemented_pipelines class_type (team arguments))
    (fun runner =>
       match _pipeline runner with
       | None => Raise NoneTypeError
       | Some p =>
           Ok (mkRunner (Some (set_directories (team arguments) p)) (_team_id runner))
       end).

(** "Handle subject" *)
Definition handle_subjects (arguments : Namespace) (g : Py.Rng)
  : M PipelineRunner unit :=
  match subjects arguments with
  | Some l => subjects_setter get_all_participants (map Py.RawStr l)
  | None =>
      match rsubjects arguments with
      | Some r =>
          match Py.int_of_str r with
          | Ok k => random_nb_subjects_setter get_participants k g
          | Raise e => raise e
          end
      | None =>
          match nsubjects arguments with
          | Some n =>
              match Py.int_of_str n with
              | Ok k => nb_subjects_setter get_participants_subset k
              | Raise e => raise e
              end
          | None => raise int_of_None
          end
      end
  end.

(** "Check data" *)
Definition check_data (arguments : Namespace) (runner : PipelineRunner)
    (isfile : FileSystem) : list Output * result unit :=
  match _pipeline runner with
  | None => ([], Raise NoneTypeError)
  | Some p =>
      let header := [MissingHeader (team arguments) (length (subject_list p))] in
      match (if negb (group arguments)
             then bind_result (get_missing_first_level_outputs runner isfile)
                    (fun files => Ok [FirstLevel files])
             else Ok [])
      with
      | Raise e => (header, Raise e)
      | Ok first_level =>
          match (if negb (first arguments)
                 then bind_result (get_missing_group_level_outputs runner isfile)
                        (fun files => Ok [GroupLevel files])
                 else Ok [])
          with
          | Raise e => ((header ++ first_level)%list, Raise e)
          | Ok group_level => ((header ++ first_level ++ group_level)%list, Ok tt)
          end
      end
  end.

(** The script: what it prints with [--check], the state of the world and
    of the trace when it ends, and how it ends. *)
Definition main (arguments : Namespace) (g : Py.Rng) (isfile : FileSystem)
    (s : Sys World) : list Output * Sys World * result unit :=
  match initialize arguments with
  | Raise e => ([], s, Raise e)
  | Ok runner =>
      match handle_subjects arguments g runner with
      | (_, Raise e) => ([], s, Raise e)
      | (runner, Ok _) =>
          if check arguments then
            let '(out, r) := check_data arguments runner isfile in (out, s, r)
          else
            let '(s', r) :=
              start nipype_run runner nb_procs (first arguments) (group arguments) s in
            ([], s', r)
      end
  end.

End Script.

Arguments main implemented_pipelines class_type get_all_participants
  get_participants get_participants_subset set_directories nb_procs {World}
  nipype_run arguments g isfile s.

End Main.

(** ** Further reference definitions *)

(** The number that a decimal numeral denotes when read after digits worth
    [acc]. *)
Fixpoint uint_value (acc : Z) (d : Decimal.uint) : Z :=
  match d with
  | Decimal.Nil => acc
  | Decimal.D0 d' => uint_value (10 * acc + 0) d'
  | Decimal.D1 d' => uint_value (10 * acc + 1) d'
  | Decimal.D2 d' => uint_value (10 * acc + 2) d'
  | Decimal.D3 d' => uint_value (10 * acc + 3) d'
  | Decimal.D4 d' => uint_value (10 * acc + 4) d'
  | Decimal.D5 d' => uint_value (10 * acc + 5) d'
  | Decimal.D6 d' => uint_value (10 * acc + 6) d'
  | Decimal.D7 d' => uint_value (10 * acc + 7) d'
  | Decimal.D8 d' => uint_value (10 * acc + 8) d'
  | Decimal.D9 d' => uint_value (10 * acc + 9) d'
  end.

(** No white space anywhere in the string. *)
Fixpoint no_space (s : string) : bool :=
  match s with
  | EmptyString => true
  | String a s' => negb (Py.is_space a) && no_space s'
  end.

(** The producers that [start] calls for a scope, in order, and what each
    returns. *)
Definition stages_of_scope (first_level_only group_level_only : bool) : list Stage :=
  ((if negb group_level_only then [Preprocessing; RunLevel; SubjectLevel] else [])
   ++ (if negb first_level_only then [GroupLevel] else []))%list.

Definition stage_value (p : Pipeline) (s : Stage) : PyObj :=
  match s with
  | Preprocessing => get_preprocessing p
  | RunLevel => get_run_level_analysis p
  | SubjectLevel => get_subject_level_analysis p
  | GroupLevel => get_group_level_analysis p
  end.

(** Running workflows one after the other with the same arguments, each
    from the world the one before it left: the workflows whose run was
    started, the world reached, and the outcome; a run that raises is the
    last one. *)
Fixpoint run_in_order {World : Type}
    (nipype_run : Workflow -> RunArgs -> World -> World * result unit)
    (a : RunArgs) (ws : list Workflow) (x : World)
  : list Workflow * World * result unit :=
  match ws with
  | [] => ([], x, Ok tt)
  | w :: ws' =>
      match nipype_run w a x with
      | (x', Ok _) =>
          let '(started, x'', r) := run_in_order nipype_run a ws' x' in
          (w :: started, x'', r)
      | (x', Raise e) => ([w], x', Raise e)
      end
  end.

(** Modelled from the spec: the two strategies of the execution-graph
    collaborator (section 6, "sequential" or "bounded-parallel(n)"), and the
    one that the arguments of a call to [run] select: the plugin MultiProc
    with at most [n_procs] workers, the default plugin of nipype, one
    worker, when no argument is given. *)
Inductive Strategy : Type :=
  | Sequential
  | BoundedParallel (workers : Z).

Definition strategy_of (a : RunArgs) : option Strategy :=
  match a with
  | RunDefault => Some Sequential
  | RunPlugin plugin n_procs =>
      if String.eqb plugin "MultiProc" then Some (BoundedParallel n_procs) else None
  end.

(** A stage with nothing to launch: [None] or the empty list. *)
Definition nothing_to_launch (workflow : PyObj) : bool :=
  match workflow with
  | PyNone => true
  | PyList [] => true
  | _ => false
  end.

(** The subject list of the runner, [[]] when it has no pipeline. *)
Definition cohort (self : PipelineRunner) : list string :=
  match _pipeline self with
  | Some p => subject_list p
  | None => []
  end.

Module DemoMain.

Definition set_directories (team_id : string) (p : Pipeline) : Pipeline := p.

(** [-t 2T6S -s 1 001 2 -c] *)
Definition check_arguments : Main.Namespace :=
  Main.mkNamespace "2T6S" None (Some ["1"; "001"; "2"]) None false false true.

(** [-t XXXX -r many] *)
Definition wrong_team_arguments : Main.Namespace :=
  Main.mkNamespace "XXXX" (Some "many") None None false false false.

Definition main :=
  Main.main Demo.implemented_pipelines Demo.class_type Demo.all_participants
    Demo.participants Demo.participants_subset set_directories 1 Demo.run_ok.

End DemoMain.

Module DemoMore.

(** The first group-level workflow fails, the others succeed. *)
Definition run_grp1_fails (w : Workflow) (a : RunArgs) (x : unit)
  : unit * result unit :=
  match w with
  | mkWorkflow name =>
      if String.eqb name "group_level_1"
      then (x, Raise (OtherError "RuntimeError" "node failed"))
      else (x, Ok tt)
  end.

(** Workflows that leave their name in the world, a list of names. *)
Definition run_records (w : Workflow) (a : RunArgs) (x : list string)
  : list string * result unit :=
  match w with
  | mkWorkflow name => ((x ++ [name])%list, Ok tt)
  end.

(** Every file is there; then the run-level output of subject 001 is
    deleted. *)
Definition all_files : FileSystem := fun _ => true.
Definition one_deleted : FileSystem := fun f => negb (String.eqb f "run/001").

(** [-t 2T6S -s 1 001 2 -c -f] *)
Definition check_first_arguments : Main.Namespace :=
  Main.mkNamespace "2T6S" None (Some ["1"; "001"; "2"]) None false true true.

End DemoMore.

(** * Properties *)

(** ** The state-and-exception monad *)

Lemma bind_assoc {S A B C : Type} (m : M S A) (k : A -> M S B) (h : B -> M S C) s :
  bind (bind m k) h s = bind m (fun a => bind (k a) h) s.
Proof.
  unfold bind. destruct (m s) as [s1 [a|e]]; reflexivity.
Qed.

Lemma bind_ext {S A B : Type} (m : M S A) (k k' : A -> M S B) s :
  (forall a s', k a s' = k' a s') -> bind m k s = bind m k' s.
Proof.
  intros H. unfold bind. destruct (m s) as [s1 [a|e]]; [apply H | reflexivity].
Qed.

(** ** Team assignment *)

Section TeamAssignment.

Variable implemented_pipelines : gmap string (option string).
Variable class_type : string -> string -> result Pipeline.

Local Abbreviation set_team := (team_id_setter implemented_pipelines class_type).
Local Abbreviation init_runner := (init implemented_pipelines class_type).
Local Abbreviation new_runner := (new_PipelineRunner implemented_pipelines class_type).

(** The setter writes [_team_id] before anything else, whatever happens
    next. *)
Lemma team_id_setter_team_id (value : string) (self : PipelineRunner) :
  _team_id (fst (set_team value self)) = value.
Proof.
  unfold team_id_setter; simpl.
  destruct (implemented_pipelines !! value) as [[cls|]|]; simpl; try reflexivity.
  destruct (class_type value cls); reflexivity.
Qed.

(** A runner that the constructor returned has a pipeline. *)
Lemma new_PipelineRunner_bound (team_id : string) (self : PipelineRunner) :
  new_runner team_id = Ok self ->
  exists p, _pipeline self = Some p /\ _team_id self = team_id.
Proof.
  unfold new_PipelineRunner, init,
    team_id_setter; simpl.
  destruct (implemented_pipelines !! team_id) as [[cls|]|]; try discriminate.
  destruct (class_type team_id cls) as [p|e]; try discriminate.
  intros [= <-]. exists p. split; reflexivity.
Qed.

(** A runner that has a pipeline keeps one through every team
    assignment, failed or not. *)
Lemma team_id_setter_bound (value : string) (self : PipelineRunner) :
  is_Some (_pipeline self) ->
  is_Some (_pipeline (fst (set_team value self))).
Proof.
  intros Hp. unfold team_id_setter; simpl.
  destruct (implemented_pipelines !! value) as [[cls|]|]; simpl; try exact Hp.
  destruct (class_type value cls); simpl; [eexists; reflexivity | exact Hp].
Qed.

(** C3. Pipeline resolution by team key: a key that is not in the registry
    makes the assignment raise the KeyError of an unknown team; a key that
    the registry maps to [None] makes it raise NotImplementedError; for any
    other key the pipeline class of the team is instantiated, and the
    instance it returns becomes the pipeline of the runner. *)
Theorem team_id_resolution (key : string) (self : PipelineRunner) :
  (key ∉ dom implemented_pipelines ->
     snd (set_team key self) = Raise (UnknownTeamError key)
     /\ new_runner key = Raise (UnknownTeamError key))
  /\ (implemented_pipelines !! key = Some None ->
     snd (set_team key self) = Raise (PipelineNotImplementedError key)
     /\ new_runner key = Raise (PipelineNotImplementedError key))
  /\ (forall cls p,
     implemented_pipelines !! key = Some (Some cls) ->
     class_type key cls = Ok p ->
     set_team key self = (mkRunner (Some p) key, Ok tt)
     /\ new_runner key = Ok (mkRunner (Some p) key)).
Proof.
  unfold new_PipelineRunner, init,
    team_id_setter; simpl.
  split; [|split].
  - intros Hdom. apply not_elem_of_dom in Hdom. rewrite Hdom. split; reflexivity.
  - intros Hnone. rewrite Hnone. split; reflexivity.
  - intros cls p Hcls Hp. rewrite Hcls, Hp. split; reflexivity.
Qed.

(** C10. A failed team assignment is not atomic: when the key is unknown
    or not implemented the setter raises, the runner it leaves behind
    already stores the new key as its team ID, and its pipeline is the one
    it had before the assignment; inside the constructor this pipeline is
    [None]. *)
Theorem team_id_failure_not_atomic (key : string) (self : PipelineRunner) :
  key ∉ dom implemented_pipelines \/ implemented_pipelines !! key = Some None ->
  exists e,
    (e = UnknownTeamError key \/ e = PipelineNotImplementedError key)
    /\ set_team key self = (mkRunner (_pipeline self) key, Raise e)
    /\ init_runner key = (mkRunner None key, Raise e).
Proof.
  unfold init, team_id_setter; simpl.
  intros [Hdom | Hnone].
  - apply not_elem_of_dom in Hdom. rewrite Hdom.
    exists (UnknownTeamError key). auto.
  - rewrite Hnone. exists (PipelineNotImplementedError key). auto.
Qed.

End TeamAssignment.

(** ** Stage sequencing and dispatch *)

Section Dispatch.

Variable World : Type.
Variable nipype_run : Workflow -> RunArgs -> World -> World * result unit.

Local Abbreviation launch_sub := (launch_sub_workflows nipype_run).
Local Abbreviation launch_stage := (launch_workflow nipype_run).
Local Abbreviation launch := (launch_workflows nipype_run).
Local Abbreviation start_runner := (start nipype_run).

Lemma extends_by_runs_refl nb_procs (s : Sys World) : extends_by_runs nb_procs s s.
Proof. exists []. split; [symmetry; apply app_nil_r | constructor]. Qed.

Lemma extends_by_runs_trans nb_procs (s1 s2 s3 : Sys World) :
  extends_by_runs nb_procs s1 s2 -> extends_by_runs nb_procs s2 s3 ->
  extends_by_runs nb_procs s1 s3.
Proof.
  intros (e1 & H1 & F1) (e2 & H2 & F2). exists (e1 ++ e2)%list. split.
  - rewrite H2, H1. symmetry. apply app_assoc.
  - apply Forall_app. split; assumption.
Qed.

Lemma extends_by_runs_bind {A B} nb_procs (m : M (Sys World) A) (k : A -> M (Sys World) B) s :
  extends_by_runs nb_procs s (fst (m s)) ->
  (forall a s1, extends_by_runs nb_procs s1 (fst (k a s1))) ->
  extends_by_runs nb_procs s (fst (bind m k s)).
Proof.
  intros Hm Hk. unfold bind. destruct (m s) as [s1 [a|e]] eqn:E; simpl in *.
  - eapply extends_by_runs_trans; [exact Hm | apply Hk].
  - exact Hm.
Qed.

Lemma check_and_run_extends nb_procs o s :
  extends_by_runs nb_procs s (fst (check_and_run nipype_run nb_procs o s)).
Proof.
  destruct o as [|w|items|r]; simpl; try apply extends_by_runs_refl.
  unfold run_workflow. destruct (nipype_run w (run_args nb_procs) (world s)) as [x r].
  simpl. exists [Ran w (run_args nb_procs)]. split; [reflexivity|].
  constructor; [exists w; reflexivity | constructor].
Qed.

Lemma launch_sub_workflows_extends nb_procs items s :
  extends_by_runs nb_procs s (fst (launch_sub nb_procs items s)).
Proof.
  revert s. induction items as [|o items IH]; intros s; simpl.
  - apply extends_by_runs_refl.
  - apply extends_by_runs_bind; [apply check_and_run_extends | intros _; apply IH].
Qed.

Lemma launch_workflow_extends nb_procs o s :
  extends_by_runs nb_procs s (fst (launch_stage nb_procs o s)).
Proof.
  destruct o as [|w|items|r].
  - apply extends_by_runs_refl.
  - apply (check_and_run_extends nb_procs (PyWorkflow w)).
  - apply launch_sub_workflows_extends.
  - apply extends_by_runs_refl.
Qed.

Lemma launch_workflows_extends nb_procs wl s :
  extends_by_runs nb_procs s (fst (launch nb_procs wl s)).
Proof.
  revert s. induction wl as [|o wl IH]; intros s; simpl.
  - apply extends_by_runs_refl.
  - apply extends_by_runs_bind; [apply launch_workflow_extends | intros _; apply IH].
Qed.

(** Launching two lists one after the other is launching their
    concatenation. *)
Lemma launch_workflows_app nb_procs l1 l2 s :
  launch nb_procs (l1 ++ l2) s =
  (run! launch nb_procs l1 in launch nb_procs l2) s.
Proof.
  revert s. induction l1 as [|o l1 IH]; intros s; simpl.
  - reflexivity.
  - rewrite bind_assoc. unfold bind.
    destruct (launch_stage nb_procs o s) as [s1 [[]|e]]; [|reflexivity].
    rewrite IH. reflexivity.
Qed.

Lemma launch_sub_workflows_app nb_procs l1 l2 s :
  launch_sub nb_procs (l1 ++ l2) s =
  (run! launch_sub nb_procs l1 in launch_sub nb_procs l2) s.
Proof.
  revert s. induction l1 as [|o l1 IH]; intros s; simpl.
  - reflexivity.
  - rewrite bind_assoc. unfold bind.
    destruct (check_and_run nipype_run nb_procs o s) as [s1 [[]|e]]; [|reflexivity].
    rewrite IH. reflexivity.
Qed.

(** A list with an element that is not a workflow splits at the first such
    element. *)
Lemma first_invalid_unit (items : list PyObj) :
  Exists (fun o => isinstance_Workflow o = false) items ->
  exists ws bad rest,
    items = (map PyWorkflow ws ++ bad :: rest)%list
    /\ isinstance_Workflow bad = false.
Proof.
  induction items as [|o items IH]; intros H.
  - inversion H.
  - destruct o as [|w|l|r].
    2:{ assert (Hex : Exists (fun o => isinstance_Workflow o = false) items).
        { inversion H as [? ? Hw|]; [discriminate Hw | assumption]. }
        destruct (IH Hex) as (ws & bad & rest & -> & Hbad).
        exists (w :: ws), bad, rest. split; [reflexivity | exact Hbad]. }
    all: eexists [], _, items; split; reflexivity.
Qed.

(** When no run fails, a list of workflows is run from first to last. *)
Lemma launch_sub_workflows_all_ok nb_procs (ws : list Workflow) s :
  (forall w a x, snd (nipype_run w a x) = Ok tt) ->
  snd (launch_sub nb_procs (map PyWorkflow ws) s) = Ok tt
  /\ trace (fst (launch_sub nb_procs (map PyWorkflow ws) s)) =
     (trace s ++ map (fun w => Ran w (run_args nb_procs)) ws)%list.
Proof.
  intros Hok. revert s. induction ws as [|w ws IH]; intros s; simpl.
  - split; [reflexivity | symmetry; apply app_nil_r].
  - unfold bind, run_workflow.
    specialize (Hok w (run_args nb_procs) (world s)).
    destruct (nipype_run w (run_args nb_procs) (world s)) as [x r]. simpl in Hok. subst r.
    destruct (IH (mkSys x (trace s ++ [Ran w (run_args nb_procs)])%list)) as [H1 H2].
    split; [exact H1|]. rewrite H2. simpl. rewrite <- app_assoc. reflexivity.
Qed.

Lemma workflows_of_list (items : list PyObj) :
  forallb isinstance_Workflow items = true ->
  items = map PyWorkflow (units_of_stage (PyList items)).
Proof.
  induction items as [|o items IH]; simpl; intros H.
  - reflexivity.
  - apply andb_prop in H as [Ho Hitems].
    destruct o; try discriminate Ho. simpl. f_equal. apply IH, Hitems.
Qed.

Lemma launch_workflows_all_ok nb_procs (wl : list PyObj) s :
  (forall w a x, snd (nipype_run w a x) = Ok tt) ->
  forallb conforming wl = true ->
  snd (launch nb_procs wl s) = Ok tt
  /\ trace (fst (launch nb_procs wl s)) =
     (trace s ++ map (fun w => Ran w (run_args nb_procs)) (units_of wl))%list.
Proof.
  intros Hok. revert s. induction wl as [|o wl IH]; intros s Hwl.
  - simpl. split; [reflexivity | symmetry; apply app_nil_r].
  - simpl in Hwl. apply andb_prop in Hwl as [Ho Hwl].
    assert (Hstage : snd (launch_stage nb_procs o s) = Ok tt
              /\ trace (fst (launch_stage nb_procs o s)) =
                 (trace s ++ map (fun w => Ran w (run_args nb_procs))
                                 (units_of_stage o))%list).
    { destruct o as [|w|items|r]; try discriminate Ho.
      - split; [reflexivity | symmetry; apply app_nil_r].
      - simpl. unfold run_workflow.
        specialize (Hok w (run_args nb_procs) (world s)).
        destruct (nipype_run w (run_args nb_procs) (world s)) as [x r].
        simpl in *. split; [exact Hok | reflexivity].
      - simpl in Ho. rewrite (workflows_of_list items Ho) at 1 2.
        apply launch_sub_workflows_all_ok, Hok. }
    destruct Hstage as [H1 H2].
    change (launch nb_procs (o :: wl) s)
      with ((run! launch_stage nb_procs o in launch nb_procs wl) s).
    unfold bind. destruct (launch_stage nb_procs o s) as [s1 r1].
    simpl in H1, H2. subst r1.
    destruct (IH s1 Hwl) as [H3 H4]. split; [exact H3|].
    rewrite H4, H2. unfold units_of. simpl. rewrite map_app, app_assoc. reflexivity.
Qed.

Lemma launch_sub_workflows_invalid nb_procs (ws : list Workflow) bad rest s :
  isinstance_Workflow bad = false ->
  launch_sub nb_procs (map PyWorkflow ws ++ bad :: rest) s =
  (run! launch_sub nb_procs (map PyWorkflow ws) in
   raise InvalidWorkUnitError) s.
Proof.
  intros Hbad. rewrite launch_sub_workflows_app. unfold bind.
  destruct (launch_sub nb_procs (map PyWorkflow ws) s) as [s1 [[]|e]];
    [|reflexivity].
  destruct bad; try discriminate Hbad; reflexivity.
Qed.

(** C6. The stage list by scope: with first-level-only the producers of
    preprocessing, run level and subject level are called, in this order,
    and the list holds their three results, the group-level producer is not
    called; with group-level-only the group-level producer alone is called
    and the list holds its result; with neither flag the four producers are
    called in the order preprocessing, run level, subject level, group
    level, and the list holds the four results in that order. *)
Theorem workflow_list_by_scope (p : Pipeline) (s : Sys World) :
  generate_workflow_list true false p s =
    (mkSys (world s)
       (trace s ++ [Produced Preprocessing; Produced RunLevel; Produced SubjectLevel]),
     Ok [get_preprocessing p; get_run_level_analysis p;
         get_subject_level_analysis p])
  /\ generate_workflow_list false true p s =
    (mkSys (world s) (trace s ++ [Produced GroupLevel]),
     Ok [get_group_level_analysis p])
  /\ generate_workflow_list false false p s =
    (mkSys (world s)
       (trace s ++ [Produced Preprocessing; Produced RunLevel; Produced SubjectLevel;
                    Produced GroupLevel]),
     Ok [get_preprocessing p; get_run_level_analysis p;
         get_subject_level_analysis p; get_group_level_analysis p]).
Proof.
  unfold generate_workflow_list, produce, emit, bind, ret; simpl.
  repeat split; repeat rewrite <- app_assoc; reflexivity.
Qed.

(** C7. When [first_level_only] and [group_level_only] are both true,
    [start] on a runner that has a pipeline raises the AttributeError of
    contradictory scopes, and the only thing done before is the print of the
    first line: no stage producer has been called and no workflow run. *)
Theorem start_rejects_both_scopes (self : PipelineRunner) (p : Pipeline)
    (nb_procs : Z) (s : Sys World) :
  _pipeline self = Some p ->
  start_runner self nb_procs true true s =
    (mkSys (world s) (trace s ++ [Printed (_team_id self) (subject_list p)]),
     Raise InvalidScopeError).
Proof.
  intros Hp. unfold start. rewrite Hp. reflexivity.
Qed.

Lemma run_in_order_app (a : RunArgs) (ws1 ws2 : list Workflow) (x : World) :
  run_in_order nipype_run a (ws1 ++ ws2) x =
  match run_in_order nipype_run a ws1 x with
  | (started, x1, Ok _) =>
      let '(started', x2, r) := run_in_order nipype_run a ws2 x1 in
      ((started ++ started')%list, x2, r)
  | (started, x1, Raise e) => (started, x1, Raise e)
  end.
Proof.
  revert x. induction ws1 as [|w ws1 IH]; intros x; simpl.
  - destruct (run_in_order nipype_run a ws2 x) as [[started x2] r]. reflexivity.
  - destruct (nipype_run w a x) as [x' [[]|e]]; [|reflexivity].
    rewrite IH. destruct (run_in_order nipype_run a ws1 x') as [[started x1] [[]|e]];
      [|reflexivity].
    destruct (run_in_order nipype_run a ws2 x1) as [[started' x2] r]. reflexivity.
Qed.

Lemma launch_sub_workflows_in_order nb_procs (ws : list Workflow) (s : Sys World) :
  launch_sub nb_procs (map PyWorkflow ws) s =
  let '(started, x, r) :=
    run_in_order nipype_run (run_args nb_procs) ws (world s) in
  (mkSys x (trace s ++ map (fun w => Ran w (run_args nb_procs)) started), r).
Proof.
  revert s. induction ws as [|w ws IH]; intros s; simpl.
  - rewrite app_nil_r. destruct s; reflexivity.
  - unfold bind, run_workflow.
    destruct (nipype_run w (run_args nb_procs) (world s)) as [x' [[]|e]]; [|reflexivity].
    rewrite IH. cbn [world trace].
    destruct (run_in_order nipype_run (run_args nb_procs) ws x') as [[started x2] r].
    simpl. rewrite <- app_assoc. reflexivity.
Qed.

(** Launching stages that conform is running their workflows in order,
    each from the world left by the one before, up to the first run that
    raises. *)
Lemma launch_workflows_in_order nb_procs (wl : list PyObj) (s : Sys World) :
  forallb conforming wl = true ->
  launch nb_procs wl s =
  let '(started, x, r) :=
    run_in_order nipype_run (run_args nb_procs) (units_of wl) (world s) in
  (mkSys x (trace s ++ map (fun w => Ran w (run_args nb_procs)) started), r).
Proof.
  revert s. induction wl as [|o wl IH]; intros s Hwl.
  - simpl. rewrite app_nil_r. destruct s; reflexivity.
  - simpl in Hwl. apply andb_prop in Hwl as [Ho Hwl].
    assert (Hstage : launch_stage nb_procs o s =
              launch_sub nb_procs (map PyWorkflow (units_of_stage o)) s).
    { destruct o as [|w|items|r]; try discriminate Ho.
      - reflexivity.
      - simpl. unfold bind. destruct (run_workflow nipype_run nb_procs w s) as [s1 [[]|e]];
          reflexivity.
      - simpl in Ho. rewrite <- (workflows_of_list items Ho). reflexivity. }
    change (launch nb_procs (o :: wl) s)
      with ((run! launch_stage nb_procs o in launch nb_procs wl) s).
    unfold bind. rewrite Hstage, launch_sub_workflows_in_order.
    unfold units_of. simpl. rewrite run_in_order_app.
    destruct (run_in_order nipype_run (run_args nb_procs) (units_of_stage o) (world s))
      as [[started x1] [[]|e]]; [|reflexivity].
    rewrite (IH _ Hwl). cbn [world trace]. fold (units_of wl).
    destruct (run_in_order nipype_run (run_args nb_procs) (units_of wl) x1)
      as [[started' x2] r].
    rewrite map_app, app_assoc. reflexivity.
Qed.

Lemma run_in_order_all_ok (a : RunArgs) (ws : list Workflow) (x : World) :
  (forall w a x, snd (nipype_run w a x) = Ok tt) ->
  run_in_order nipype_run a ws x =
  (ws, fold_left (fun x w => fst (nipype_run w a x)) ws x, Ok tt).
Proof.
  intros Hok. revert x. induction ws as [|w ws IH]; intros x; simpl.
  - reflexivity.
  - specialize (Hok w a x) as Hw.
    destruct (nipype_run w a x) as [x' r]. simpl in Hw. subst r.
    rewrite IH. reflexivity.
Qed.

(** C8. Dispatch runs the stages one after the other: launching a stage list
    is launching its first stages and then, from the state they leave and
    only when they returned normally, the following ones. Every run the
    launch performs is made with the arguments selected by [nb_procs]: the
    plugin MultiProc with [n_procs = nb_procs] when [nb_procs > 1], no
    argument (nipype's default, single-worker execution) otherwise. When
    the stages conform and no run fails, every unit of work is run exactly
    once, in the order of the stages and of the lists inside them. On
    stages that conform, the launch is the runs of their workflows in order,
    each run starting from the world that the run before it returned, and
    it ends with the world and the exception of the first run that raises;
    the arguments select the bounded multi-worker strategy with [nb_procs]
    workers when [nb_procs > 1] and the sequential one otherwise. *)
Theorem dispatch_in_sequence (nb_procs : Z) :
  ((1 < nb_procs -> run_args nb_procs = RunPlugin "MultiProc" nb_procs)
   /\ (nb_procs <= 1 -> run_args nb_procs = RunDefault))
  /\ (forall wl s,
        forallb conforming wl = true ->
        launch nb_procs wl s =
        let '(started, x, r) :=
          run_in_order nipype_run (run_args nb_procs) (units_of wl) (world s) in
        (mkSys x (trace s ++ map (fun w => Ran w (run_args nb_procs)) started), r))
  /\ strategy_of (run_args nb_procs) =
     Some (if (1 <? nb_procs)%Z then BoundedParallel nb_procs else Sequential)
  /\ (forall l1 l2 s,
        launch nb_procs (l1 ++ l2) s =
        (run! launch nb_procs l1 in launch nb_procs l2) s)
  /\ (forall wl s,
        extends_by_runs nb_procs s (fst (launch nb_procs wl s)))
  /\ (forall wl s,
        (forall w a x, snd (nipype_run w a x) = Ok tt) ->
        forallb conforming wl = true ->
        snd (launch nb_procs wl s) = Ok tt
        /\ trace (fst (launch nb_procs wl s)) =
           (trace s ++ map (fun w => Ran w (run_args nb_procs)) (units_of wl))%list).
Proof.
  split; [|split; [|split; [|split; [|split]]]].
  - unfold run_args. split; intros H.
    + apply Z.ltb_lt in H. rewrite H. reflexivity.
    + apply Z.ltb_ge in H. rewrite H. reflexivity.
  - intros wl s Hwl. apply launch_workflows_in_order, Hwl.
  - unfold run_args. destruct (1 <? nb_procs)%Z; reflexivity.
  - apply launch_workflows_app.
  - apply launch_workflows_extends.
  - intros wl s Hok Hwl. apply launch_workflows_all_ok; assumption.
Qed.

(** C1 (amended). A list-valued stage with an element that is not a
    workflow is dispatched up to its first such element: the launch behaves
    as launching the stages before it, then the workflows that precede that
    element in the list, and then raising the AttributeError of an invalid
    work unit. The element itself, the elements after it and the later
    stages are never run; the workflows before it have been run by then.
    In particular, when the earlier stages conform and no run fails, the
    launch ends with that error after exactly the runs of the earlier
    stages and of these workflows. *)
Theorem invalid_unit_stops_stage (nb_procs : Z) (before items after : list PyObj)
    (s : Sys World) :
  Exists (fun o => isinstance_Workflow o = false) items ->
  exists ws bad rest,
    items = (map PyWorkflow ws ++ bad :: rest)%list
    /\ isinstance_Workflow bad = false
    /\ launch nb_procs (before ++ PyList items :: after) s =
       (run! launch nb_procs before in
        run! launch_sub nb_procs (map PyWorkflow ws) in
        raise InvalidWorkUnitError) s
    /\ ((forall w a x, snd (nipype_run w a x) = Ok tt) ->
        forallb conforming before = true ->
        snd (launch nb_procs (before ++ PyList items :: after) s) =
          Raise InvalidWorkUnitError
        /\ trace (fst (launch nb_procs (before ++ PyList items :: after) s)) =
           (trace s ++ map (fun w => Ran w (run_args nb_procs))
                           (units_of before ++ ws))%list).
Proof.
  intros Hex. destruct (first_invalid_unit items Hex) as (ws & bad & rest & -> & Hbad).
  exists ws, bad, rest.
  assert (Heq : launch nb_procs
                  (before ++ PyList (map PyWorkflow ws ++ bad :: rest) :: after) s =
                (run! launch nb_procs before in
                 run! launch_sub nb_procs (map PyWorkflow ws) in
                 raise InvalidWorkUnitError) s).
  { rewrite launch_workflows_app. apply bind_ext. intros _ s1.
    change (launch nb_procs
              (PyList (map PyWorkflow ws ++ bad :: rest) :: after) s1)
      with ((run! launch_sub nb_procs (map PyWorkflow ws ++ bad :: rest) in
             launch nb_procs after) s1).
    unfold bind at 1.
    rewrite (launch_sub_workflows_invalid nb_procs ws bad rest s1 Hbad).
    unfold bind.
    destruct (launch_sub nb_procs (map PyWorkflow ws) s1) as [s2 [[]|e]];
      reflexivity. }
  split; [reflexivity|]. split; [exact Hbad|]. split; [exact Heq|].
  intros Hok Hbefore. rewrite Heq. unfold bind.
  destruct (launch_workflows_all_ok nb_procs before s Hok Hbefore) as [H1 H2].
  destruct (launch nb_procs before s) as [s1 r1]. simpl in H1, H2. subst r1.
  destruct (launch_sub_workflows_all_ok nb_procs ws s1 Hok) as [H3 H4].
  destruct (launch_sub nb_procs (map PyWorkflow ws) s1) as [s2 r2].
  simpl in H3, H4. subst r2. simpl. split; [reflexivity|].
  rewrite H4, H2, map_app, app_assoc. reflexivity.
Qed.

End Dispatch.

(** ** Checking outputs *)

Lemma missing_files_absent (isfile : FileSystem) (files : list string) :
  missing_files isfile files = absent_files isfile files.
Proof.
  unfold missing_files. induction files as [|f files IH]; simpl.
  - reflexivity.
  - rewrite filter_cons, IH.
    destruct (decide (negb (isfile f) = true)) as [H|H];
      destruct (isfile f); simpl in *; try reflexivity; try discriminate H.
    exfalso. apply H. reflexivity.
Qed.

Lemma missing_files_elem (isfile : FileSystem) (files : list string) (f : string) :
  f ∈ missing_files isfile files <-> f ∈ files /\ isfile f = false.
Proof.
  unfold missing_files. rewrite list_elem_of_filter.
  destruct (isfile f); simpl; split; intros [H1 H2]; split;
    try assumption; try reflexivity; discriminate.
Qed.

Lemma missing_files_none (isfile : FileSystem) (files : list string) :
  missing_files isfile files = [] <-> Forall (fun f => isfile f = true) files.
Proof.
  rewrite missing_files_absent. induction files as [|f files IH]; simpl.
  - split; [constructor | reflexivity].
  - destruct (isfile f) eqn:E.
    + rewrite IH. split; [intros H; constructor; assumption|].
      intros H. inversion H; assumption.
    + split; [discriminate|]. intros H. inversion H; congruence.
Qed.

(** X21. Deleting one file when everything was there: the next check
    reports that file, as many times as it is expected, and nothing else. *)
Lemma missing_files_after_delete (isfile isfile' : FileSystem)
    (files : list string) (f : string) :
  Forall (fun x => isfile x = true) files ->
  isfile' f = false ->
  (forall x, x <> f -> isfile' x = isfile x) ->
  missing_files isfile' files = filter (fun x => x = f) files.
Proof.
  intros Hall Hf Hother. rewrite missing_files_absent.
  induction Hall as [|x files Hx Hall IH]; simpl.
  - reflexivity.
  - rewrite filter_cons. destruct (decide (x = f)) as [->|Hne].
    + rewrite Hf. f_equal. exact IH.
    + rewrite (Hother x Hne), Hx. exact IH.
Qed.

(** C9. The output check: on a runner that has a pipeline, the first-level
    check returns the missing files of the preprocessing outputs followed by
    the run-level outputs followed by the subject-level outputs, and the
    group-level check those of the group-level outputs. The missing files of
    a list of expected paths are exactly the paths of the list that are not
    files on the file system, each kept where it stood; there are none
    exactly when every expected path is a file. *)
Theorem missing_outputs_are_absent_files (self : PipelineRunner) (p : Pipeline)
    (isfile : FileSystem) :
  _pipeline self = Some p ->
  get_missing_first_level_outputs self isfile =
    Ok (missing_files isfile
          (get_preprocessing_outputs p ++ get_run_level_outputs p
             ++ get_subject_level_outputs p)%list)
  /\ get_missing_group_level_outputs self isfile =
    Ok (missing_files isfile (get_group_level_outputs p))
  /\ (forall files : list string,
        missing_files isfile files = absent_files isfile files
        /\ sublist (missing_files isfile files) files
        /\ (forall f, f ∈ missing_files isfile files <-> f ∈ files /\ isfile f = false)
        /\ (missing_files isfile files = [] <->
            Forall (fun f => isfile f = true) files)).
Proof.
  intros Hp. unfold get_missing_first_level_outputs, get_missing_group_level_outputs.
  rewrite Hp. split; [|split].
  - rewrite <- app_assoc. reflexivity.
  - reflexivity.
  - intros files. split; [apply missing_files_absent|].
    split; [apply sublist_filter|].
    split; [intros f; apply missing_files_elem | apply missing_files_none].
Qed.

(** ** Removing duplicates *)

Lemma first_occurrences_elem (l : list string) (x : string) :
  x ∈ first_occurrences l <-> x ∈ l.
Proof.
  induction l as [|y l IH]; simpl.
  - reflexivity.
  - rewrite !elem_of_cons, list_elem_of_filter, IH.
    destruct (decide (x = y)) as [->|Hne]; tauto.
Qed.

Lemma first_occurrences_NoDup (l : list string) : NoDup (first_occurrences l).
Proof.
  induction l as [|y l IH]; simpl.
  - constructor.
  - constructor.
    + rewrite list_elem_of_filter. intros [Hne _]. apply Hne. reflexivity.
    + apply NoDup_filter, IH.
Qed.

Lemma filter_not_seen_snoc (seen l : list string) (x : string) :
  filter (fun y => y ∉ (seen ++ [x])%list) l =
  filter (fun y => y ∉ seen) (filter (fun y => y <> x) l).
Proof.
  induction l as [|y l IH]; simpl.
  - reflexivity.
  - rewrite !filter_cons, IH.
    destruct (decide (y ∉ (seen ++ [x])%list)) as [H1|H1];
      destruct (decide (y <> x)) as [H2|H2];
      rewrite ?filter_cons; try destruct (decide (y ∉ seen)) as [H3|H3];
      try reflexivity; exfalso;
      rewrite elem_of_app, list_elem_of_singleton in H1;
      destruct (decide (y = x)); tauto.
Qed.

Lemma filter_not_seen_absorb (seen l : list string) (x : string) :
  x ∈ seen ->
  filter (fun y => y ∉ seen) (filter (fun y => y <> x) l) =
  filter (fun y => y ∉ seen) l.
Proof.
  intros Hx. induction l as [|y l IH]; simpl.
  - reflexivity.
  - rewrite !filter_cons.
    destruct (decide (y <> x)) as [H2|H2];
      rewrite ?filter_cons, IH; destruct (decide (y ∉ seen)) as [H3|H3];
      try reflexivity; exfalso;
      destruct (decide (y = x)) as [->|]; tauto.
Qed.

Lemma fromkeys_into_first_occurrences (seen l : list string) :
  Py.fromkeys_into seen l =
  (seen ++ filter (fun y => y ∉ seen) (first_occurrences l))%list.
Proof.
  revert seen. induction l as [|x l IH]; intros seen; simpl.
  - symmetry. apply app_nil_r.
  - rewrite filter_cons. destruct (decide (x ∈ seen)) as [Hin|Hnin].
    + rewrite bool_decide_true by exact Hin.
      rewrite decide_False by (intros H; exact (H Hin)).
      rewrite IH, filter_not_seen_absorb by exact Hin. reflexivity.
    + rewrite bool_decide_false by exact Hnin.
      rewrite decide_True by exact Hnin.
      rewrite IH, filter_not_seen_snoc, <- app_assoc. reflexivity.
Qed.

(** [list(dict.fromkeys(l))] keeps the first occurrence of each element. *)
Lemma fromkeys_first_occurrences (l : list string) :
  Py.fromkeys l = first_occurrences l.
Proof.
  unfold Py.fromkeys. rewrite fromkeys_into_first_occurrences. simpl.
  induction (first_occurrences l) as [|y l' IH]; simpl.
  - reflexivity.
  - rewrite filter_cons, decide_True by apply not_elem_of_nil. f_equal. exact IH.
Qed.

(** ** Drawing at random *)

Lemma round53_below (p n : Z) :
  0 < n -> 0 <= p <= (2 ^ 53 - 1) * n ->
  0 <= Py.round53 p < n * 2 ^ 53.
Proof.
  intros Hn Hp. unfold Py.round53.
  destruct (Z.leb_spec (Z.log2 p - 52) 0) as [He|He]; [lia|].
  set (e := Z.log2 p - 52) in *.
  assert (Hp0 : 0 < p).
  { destruct (Z.eq_dec p 0) as [->|]; [|lia]. unfold e in He. simpl in He. lia. }
  pose proof (Z.log2_spec p Hp0) as [Hlo _].
  replace (Z.log2 p) with ((e - 1) + 53) in Hlo by (unfold e; lia).
  rewrite Z.pow_add_r in Hlo by lia.
  assert (HE : 2 ^ e = 2 * 2 ^ (e - 1)).
  { replace e with (1 + (e - 1)) at 1 by lia. rewrite Z.pow_add_r by lia. reflexivity. }
  assert (HH : 0 < 2 ^ (e - 1)) by (apply Z.pow_pos_nonneg; lia).
  set (H := 2 ^ (e - 1)) in *. set (E := 2 ^ e) in *.
  pose proof (Z.div_mod p E ltac:(lia)) as Hdiv.
  pose proof (Z.mod_pos_bound p E ltac:(lia)) as Hr.
  assert (Hq : 0 <= p / E) by (apply Z.div_pos; lia).
  set (q := p / E) in *. set (r := p mod E) in *.
  assert (HHn : H < n) by nia.
  destruct (Z.ltb_spec H r) as [Hhr|Hhr]; simpl.
  - nia.
  - destruct (Z.eqb_spec r H) as [Heq|Hne]; simpl; [|nia].
    destruct (Z.odd q); nia.
Qed.

Lemma floor_mul_range (m n : Z) :
  0 <= m < 2 ^ 53 -> 0 < n -> 0 <= Py.floor_mul m n < n.
Proof.
  intros Hm Hn. unfold Py.floor_mul.
  assert (Hp : 0 <= m * n <= (2 ^ 53 - 1) * n) by nia.
  pose proof (round53_below (m * n) n Hn Hp) as [H0 H1].
  split.
  - apply Z.div_pos; lia.
  - apply Z.div_lt_upper_bound; lia.
Qed.

Lemma choices_loop_ok {A : Type} (population : list A) (k : nat) (g : Py.Rng) :
  population <> [] ->
  exists l, fst (Py.choices_loop population k g) = Ok l
            /\ length l = k /\ Forall (fun x => x ∈ population) l.
Proof.
  intros Hne. revert g. induction k as [|k IH]; intros g; simpl.
  - exists []. repeat split. constructor.
  - set (n := Z.of_nat (length population)).
    set (m := g O mod 2 ^ 53).
    assert (Hn : 0 < n).
    { unfold n. destruct population; [contradiction | simpl; lia]. }
    assert (Hm : 0 <= m < 2 ^ 53) by (apply Z.mod_pos_bound; lia).
    assert (Hi : (Z.to_nat (Py.floor_mul m n) < length population)%nat).
    { pose proof (floor_mul_range m n Hm Hn). unfold n in *. lia. }
    apply lookup_lt_is_Some in Hi as [x Hx]. rewrite Hx.
    destruct (IH (fun i => g (S i))) as (l & Hl & Hlen & Hall).
    destruct (Py.choices_loop population k (fun i => g (S i))) as [r g''].
    simpl in Hl. subst r. exists (x :: l). simpl. repeat split.
    + f_equal. exact Hlen.
    + constructor; [|exact Hall]. eapply list_elem_of_lookup_2, Hx.
Qed.

(** ** Cohort selection *)

Section Cohort.

Variable get_all_participants : list string.
Variable get_participants : string -> list string.
Variable get_participants_subset : Z -> list string.

Local Abbreviation check := (check_subjects get_all_participants).
Local Abbreviation set_subjects := (subjects_setter get_all_participants).

(** The list comprehension succeeds exactly when every identifier has a
    canonical form, and then lists these forms in order. *)
Lemma canonical_all_Forall2 (value : list Py.Raw) (ids : list string) :
  canonical_all value = Ok ids <->
  Forall2 (fun x c => canonical x = Ok c) value ids.
Proof.
  revert ids. induction value as [|x value IH]; intros ids; simpl.
  - split.
    + intros [= <-]. constructor.
    + intros H. inversion H. reflexivity.
  - split.
    + destruct (canonical x) as [c|e] eqn:Ec; simpl; [|discriminate].
      destruct (canonical_all value) as [cs|e] eqn:Ecs; simpl; [|discriminate].
      intros [= <-]. constructor; [exact Ec | apply IH; reflexivity].
    + intros H. inversion H as [|? c ? cs Hc Hcs]; subst.
      rewrite Hc. simpl. apply IH in Hcs. rewrite Hcs. reflexivity.
Qed.

Lemma check_subjects_ok (value : list Py.Raw) (ids : list string) :
  canonical_all value = Ok ids ->
  Forall (fun c => c ∈ get_all_participants) ids ->
  check value = Ok tt.
Proof.
  revert ids. induction value as [|x value IH]; intros ids; simpl.
  - reflexivity.
  - destruct (canonical x) as [c|e]; simpl; [|discriminate].
    destruct (canonical_all value) as [cs|e]; simpl; [|discriminate].
    intros [= <-] Hall. inversion Hall as [|? ? Hc Hcs]; subst.
    rewrite bool_decide_true by exact Hc. apply (IH cs); [reflexivity | exact Hcs].
Qed.

Lemma check_subjects_ok_inv (value : list Py.Raw) :
  check value = Ok tt ->
  exists ids, canonical_all value = Ok ids
              /\ Forall (fun c => c ∈ get_all_participants) ids.
Proof.
  induction value as [|x value IH]; simpl.
  - intros _. exists []. split; [reflexivity | constructor].
  - destruct (canonical x) as [c|e]; simpl; [|discriminate].
    destruct (decide (c ∈ get_all_participants)) as [Hc|Hc].
    + rewrite bool_decide_true by exact Hc. intros H.
      destruct (IH H) as (cs & -> & Hcs). exists (c :: cs).
      split; [reflexivity | constructor; assumption].
    + rewrite bool_decide_false by exact Hc. discriminate.
Qed.

(** The loop stops at the first identifier whose canonical form is not a
    participant. *)
Lemma check_subjects_rejects (before after : list Py.Raw) (x : Py.Raw) (c : string) :
  Forall (fun y => exists cy, canonical y = Ok cy) before ->
  canonical x = Ok c ->
  c ∉ get_all_participants ->
  exists y cy,
    (y ∈ (before ++ [x])%list)
    /\ canonical y = Ok cy /\ (cy ∉ get_all_participants)
    /\ check (before ++ x :: after)%list = Raise (InvalidSubjectError y).
Proof.
  intros Hbefore Hx Hc.
  induction Hbefore as [|y before [c0 Hy] Hbefore IH]; simpl.
  - exists x, c. rewrite Hx. simpl. rewrite bool_decide_false by exact Hc.
    repeat split; try assumption. apply list_elem_of_singleton. reflexivity.
  - rewrite Hy. simpl.
    destruct (decide (c0 ∈ get_all_participants)) as [Hin|Hout].
    + rewrite bool_decide_true by exact Hin.
      destruct IH as (y' & cy & Hy' & Hcy & Hcout & Heq).
      exists y', cy. repeat split; try assumption.
      apply elem_of_cons. right. exact Hy'.
    + rewrite bool_decide_false by exact Hout.
      exists y, c0. repeat split; try assumption.
      apply elem_of_cons. left. reflexivity.
Qed.

(** C4. Explicit selection of identifiers that all have a canonical form in
    the participant universe: on a runner that has a pipeline the setter
    returns normally and the subject list becomes the canonical forms with
    duplicates removed, first occurrences kept in order (a list without
    repetition holding exactly the canonical forms); selecting "1", "001"
    and the integer 1 leaves the one-element list "001". *)
Theorem explicit_selection_canonical (value : list Py.Raw) (ids : list string)
    (self : PipelineRunner) (p : Pipeline) :
  _pipeline self = Some p ->
  Forall2 (fun x c => canonical x = Ok c) value ids ->
  Forall (fun c => c ∈ get_all_participants) ids ->
  set_subjects value self =
    (mkRunner (Some (set_subject_list (first_occurrences ids) p)) (_team_id self),
     Ok tt)
  /\ cohort (fst (set_subjects value self)) = first_occurrences ids
  /\ NoDup (first_occurrences ids)
  /\ (forall c, c ∈ first_occurrences ids <-> c ∈ ids)
  /\ ("001" ∈ get_all_participants ->
      set_subjects [Py.RawStr "1"; Py.RawStr "001"; Py.RawInt 1] self =
        (mkRunner (Some (set_subject_list ["001"] p)) (_team_id self), Ok tt)
      /\ cohort (fst (set_subjects [Py.RawStr "1"; Py.RawStr "001"; Py.RawInt 1] self)) =
         ["001"]).
Proof.
  intros Hp Hcan Hall.
  assert (Hgen : forall value ids,
             canonical_all value = Ok ids ->
             Forall (fun c => c ∈ get_all_participants) ids ->
             set_subjects value self =
               (mkRunner (Some (set_subject_list (first_occurrences ids) p))
                  (_team_id self), Ok tt)).
  { intros v cs Hv Hcs. unfold subjects_setter.
    rewrite (check_subjects_ok v cs Hv Hcs), Hv.
    unfold assign_subject_list. rewrite Hp, fromkeys_first_occurrences. reflexivity. }
  assert (Hone : "001" ∈ get_all_participants ->
                 set_subjects [Py.RawStr "1"; Py.RawStr "001"; Py.RawInt 1] self =
                   (mkRunner (Some (set_subject_list ["001"] p)) (_team_id self), Ok tt)).
  { intros H001.
    apply (Hgen [Py.RawStr "1"; Py.RawStr "001"; Py.RawInt 1] ["001"; "001"; "001"]).
    - vm_compute. reflexivity.
    - repeat constructor; exact H001. }
  rewrite (Hgen value ids (proj2 (canonical_all_Forall2 value ids) Hcan) Hall).
  split; [reflexivity|].
  split; [reflexivity|].
  split; [apply first_occurrences_NoDup|].
  split; [intros c; apply first_occurrences_elem|].
  intros H001. rewrite (Hone H001). split; reflexivity.
Qed.

(** C5 (amended). Explicit selection of a list in which some identifier has
    a canonical form outside the participant universe, every identifier
    before it having a canonical form ([int] reads it and [str] writes it
    back): the setter raises the AttributeError of an invalid subject,
    naming the first identifier of the list whose canonical form is outside
    the universe, and the runner, with its pipeline and subject list, is
    left as it was. *)
Theorem explicit_selection_rejects (before after : list Py.Raw) (x : Py.Raw)
    (c : string) (self : PipelineRunner) :
  Forall (fun y => exists cy, canonical y = Ok cy) before ->
  canonical x = Ok c ->
  c ∉ get_all_participants ->
  exists y cy,
    (y ∈ (before ++ [x])%list)
    /\ canonical y = Ok cy /\ (cy ∉ get_all_participants)
    /\ set_subjects (before ++ x :: after)%list self =
       (self, Raise (InvalidSubjectError y))
    /\ cohort (fst (set_subjects (before ++ x :: after)%list self)) = cohort self.
Proof.
  intros Hbefore Hx Hc.
  destruct (check_subjects_rejects before after x c Hbefore Hx Hc)
    as (y & cy & Hy & Hcy & Hout & Hcheck).
  exists y, cy.
  assert (Hset : set_subjects (before ++ x :: after)%list self =
                 (self, Raise (InvalidSubjectError y))).
  { unfold subjects_setter. rewrite Hcheck. reflexivity. }
  rewrite Hset. repeat split; assumption.
Qed.

(** The three selections keep the pipeline of the runner, whether they
    raise or not. *)
Lemma cohort_setters_bound (self : PipelineRunner) :
  is_Some (_pipeline self) ->
  (forall value, is_Some (_pipeline (fst (set_subjects value self))))
  /\ (forall k g,
       is_Some (_pipeline (fst (random_nb_subjects_setter get_participants k g self))))
  /\ (forall k,
       is_Some (_pipeline (fst (nb_subjects_setter get_participants_subset k self)))).
Proof.
  intros [p Hp].
  assert (Hassign : forall l, is_Some (_pipeline (fst (assign_subject_list l self)))).
  { intros l. unfold assign_subject_list. rewrite Hp. simpl. eexists; reflexivity. }
  assert (Hself : is_Some (_pipeline self)) by (rewrite Hp; eexists; reflexivity).
  split; [|split].
  - intros value. unfold subjects_setter.
    destruct (check value) as [[]|e]; [|exact Hself].
    destruct (canonical_all value) as [ids|e]; [apply Hassign | exact Hself].
  - intros k g. unfold random_nb_subjects_setter.
    destruct (Py.choices (get_participants (_team_id self)) k g).1 as [l|e];
      [apply Hassign | exact Hself].
  - intros k. apply Hassign.
Qed.

(** C2 (amended). What each selection leaves as subject list, on a runner
    that has a pipeline. Explicit selection, when it returns, leaves the
    canonical forms of the identifiers given, duplicates removed and first
    occurrences kept in order: a list without repetition whose elements
    belong to the participant universe. Random selection of size [k] from a
    non-empty pool returns normally and leaves exactly [k] identifiers (none
    for a negative [k]), each drawn from the pool of the team; they may
    repeat. Subset selection leaves the list that the participants module
    returns. *)
Theorem cohort_after_selection (self : PipelineRunner) (p : Pipeline) :
  _pipeline self = Some p ->
  (forall value self',
      set_subjects value self = (self', Ok tt) ->
      exists ids,
        Forall2 (fun x c => canonical x = Ok c) value ids
        /\ cohort self' = first_occurrences ids
        /\ self' = mkRunner (Some (set_subject_list (first_occurrences ids) p))
                     (_team_id self)
        /\ NoDup (cohort self')
        /\ Forall (fun c => c ∈ get_all_participants) (cohort self'))
  /\ (forall k g,
      get_participants (_team_id self) <> [] ->
      exists l,
        random_nb_subjects_setter get_participants k g self =
          (mkRunner (Some (set_subject_list l p)) (_team_id self), Ok tt)
        /\ cohort (fst (random_nb_subjects_setter get_participants k g self)) = l
        /\ length l = Z.to_nat k
        /\ Forall (fun c => c ∈ get_participants (_team_id self)) l)
  /\ (forall k,
      nb_subjects_setter get_participants_subset k self =
        (mkRunner (Some (set_subject_list (get_participants_subset k) p))
           (_team_id self), Ok tt)
      /\ cohort (fst (nb_subjects_setter get_participants_subset k self)) =
         get_participants_subset k).
Proof.
  intros Hp. split; [|split].
  - intros value self'. unfold subjects_setter.
    destruct (check value) as [[]|e] eqn:Hcheck; [|discriminate].
    destruct (check_subjects_ok_inv value Hcheck) as (ids & Hids & Hall).
    rewrite Hids. unfold assign_subject_list. rewrite Hp, fromkeys_first_occurrences.
    intros [= <-]. exists ids.
    split; [apply canonical_all_Forall2, Hids|].
    split; [reflexivity|]. split; [reflexivity|].
    unfold cohort. simpl. split; [apply first_occurrences_NoDup|].
    rewrite Forall_forall in Hall |- *. intros c Hc.
    apply Hall, first_occurrences_elem, Hc.
  - intros k g Hpool. unfold random_nb_subjects_setter, Py.choices.
    destruct (choices_loop_ok (get_participants (_team_id self)) (Z.to_nat k) g Hpool)
      as (l & Hl & Hlen & Hall).
    rewrite Hl. unfold assign_subject_list. rewrite Hp. exists l.
    repeat split; assumption.
  - intros k. unfold nb_subjects_setter, assign_subject_list. rewrite Hp.
    split; reflexivity.
Qed.

End Cohort.

(** ** The properties on the small installation *)

Lemma team_id_resolution_demo :
  new_PipelineRunner Demo.implemented_pipelines Demo.class_type "XXXX" =
    Raise (UnknownTeamError "XXXX")
  /\ new_PipelineRunner Demo.implemented_pipelines Demo.class_type "08MQ" =
    Raise (PipelineNotImplementedError "08MQ")
  /\ new_PipelineRunner Demo.implemented_pipelines Demo.class_type "2T6S" =
    Ok Demo.runner.
Proof.
  split; [|split].
  - apply (team_id_resolution Demo.implemented_pipelines Demo.class_type
             "XXXX" Demo.runner).
    apply not_elem_of_dom. reflexivity.
  - apply (team_id_resolution Demo.implemented_pipelines Demo.class_type
             "08MQ" Demo.runner).
    reflexivity.
  - apply (team_id_resolution Demo.implemented_pipelines Demo.class_type
             "2T6S" Demo.runner) with (cls := "PipelineTeam2T6S");
      reflexivity.
Defined.

Lemma team_id_failure_not_atomic_demo :
  exists e,
    (e = UnknownTeamError "XXXX" \/ e = PipelineNotImplementedError "XXXX")
    /\ team_id_setter Demo.implemented_pipelines Demo.class_type "XXXX" Demo.runner =
       (mkRunner (Some Demo.pipeline) "XXXX", Raise e)
    /\ init Demo.implemented_pipelines Demo.class_type "XXXX" =
       (mkRunner None "XXXX", Raise e).
Proof.
  apply (team_id_failure_not_atomic Demo.implemented_pipelines Demo.class_type
           "XXXX" Demo.runner).
  left. apply not_elem_of_dom. reflexivity.
Defined.

Lemma start_rejects_both_scopes_demo :
  start Demo.run_ok Demo.runner 4 true true Demo.s0 =
    (mkSys tt [Printed "2T6S" []], Raise InvalidScopeError).
Proof.
  apply (start_rejects_both_scopes unit Demo.run_ok Demo.runner Demo.pipeline 4 Demo.s0).
  reflexivity.
Defined.

Lemma dispatch_in_sequence_demo :
  launch_workflows DemoMore.run_records 4
    [PyNone; PyWorkflow Demo.w_run; PyList [PyWorkflow Demo.w_grp1; PyWorkflow Demo.w_grp2]]
    (mkSys ["earlier"] []) =
    (mkSys ["earlier"; "run_level"; "group_level_1"; "group_level_2"]
       [Ran Demo.w_run (RunPlugin "MultiProc" 4);
        Ran Demo.w_grp1 (RunPlugin "MultiProc" 4);
        Ran Demo.w_grp2 (RunPlugin "MultiProc" 4)],
     Ok tt)
  /\ launch_workflows DemoMore.run_grp1_fails 1
       [PyWorkflow Demo.w_run; PyList [PyWorkflow Demo.w_grp1; PyWorkflow Demo.w_grp2];
        PyWorkflow Demo.w_sub]
       Demo.s0 =
     (mkSys tt [Ran Demo.w_run RunDefault; Ran Demo.w_grp1 RunDefault],
      Raise (OtherError "RuntimeError" "node failed")).
Proof.
  split.
  - apply (dispatch_in_sequence (list string) DemoMore.run_records 4). reflexivity.
  - apply (dispatch_in_sequence unit DemoMore.run_grp1_fails 1). reflexivity.
Defined.

Lemma invalid_unit_stops_stage_demo :
  exists ws bad rest,
    [PyWorkflow Demo.w_grp1; PyOther "a string"; PyWorkflow Demo.w_grp2] =
      (map PyWorkflow ws ++ bad :: rest)%list
    /\ isinstance_Workflow bad = false
    /\ launch_workflows Demo.run_ok 1
         ([PyWorkflow Demo.w_run]
            ++ PyList [PyWorkflow Demo.w_grp1; PyOther "a string"; PyWorkflow Demo.w_grp2]
            :: [PyWorkflow Demo.w_sub])%list Demo.s0 =
       (run! launch_workflows Demo.run_ok 1 [PyWorkflow Demo.w_run] in
        run! launch_sub_workflows Demo.run_ok 1 (map PyWorkflow ws) in
        raise InvalidWorkUnitError) Demo.s0
    /\ ((forall w a x, snd (Demo.run_ok w a x) = Ok tt) ->
        forallb conforming [PyWorkflow Demo.w_run] = true ->
        snd (launch_workflows Demo.run_ok 1
               ([PyWorkflow Demo.w_run]
                  ++ PyList [PyWorkflow Demo.w_grp1; PyOther "a string";
                             PyWorkflow Demo.w_grp2]
                  :: [PyWorkflow Demo.w_sub])%list Demo.s0) =
          Raise InvalidWorkUnitError
        /\ trace (fst (launch_workflows Demo.run_ok 1
               ([PyWorkflow Demo.w_run]
                  ++ PyList [PyWorkflow Demo.w_grp1; PyOther "a string";
                             PyWorkflow Demo.w_grp2]
                  :: [PyWorkflow Demo.w_sub])%list Demo.s0)) =
           (trace Demo.s0 ++ map (fun w => Ran w (run_args 1))
                               (units_of [PyWorkflow Demo.w_run] ++ ws))%list).
Proof.
  apply (invalid_unit_stops_stage unit Demo.run_ok 1 [PyWorkflow Demo.w_run]
           [PyWorkflow Demo.w_grp1; PyOther "a string"; PyWorkflow Demo.w_grp2]
           [PyWorkflow Demo.w_sub] Demo.s0).
  apply Exists_cons_tl, Exists_cons_hd. reflexivity.
Defined.

(** C1 as stated fails: a workflow placed before the wrong element of the
    list has been run when the error is raised. *)
Lemma invalid_unit_after_a_run :
  ~ (forall (World : Type)
            (nipype_run : Workflow -> RunArgs -> World -> World * result unit)
            (nb_procs : Z) (items : list PyObj) (s : Sys World),
        Exists (fun o => isinstance_Workflow o = false) items ->
        snd (launch_workflows nipype_run nb_procs [PyList items] s) =
          Raise InvalidWorkUnitError
        /\ trace (fst (launch_workflows nipype_run nb_procs [PyList items] s)) =
           trace s).
Proof.
  intros H.
  destruct (H unit Demo.run_ok 1
              [PyWorkflow Demo.w_grp1; PyOther "a string"; PyWorkflow Demo.w_grp2]
              Demo.s0) as [_ Htrace].
  - apply Exists_cons_tl, Exists_cons_hd. reflexivity.
  - vm_compute in Htrace. discriminate Htrace.
Qed.

Lemma missing_outputs_are_absent_files_demo :
  get_missing_first_level_outputs
    (mkRunner (Some (set_subject_list ["001"; "002"] Demo.pipeline)) "2T6S")
    Demo.isfile =
    Ok ["run/002"; "sub/001"; "sub/002"].
Proof.
  apply (missing_outputs_are_absent_files
           (mkRunner (Some (set_subject_list ["001"; "002"] Demo.pipeline)) "2T6S")
           (set_subject_list ["001"; "002"] Demo.pipeline) Demo.isfile).
  reflexivity.
Defined.

Lemma explicit_selection_canonical_demo :
  cohort (fst (subjects_setter Demo.all_participants
                 [Py.RawStr "2"; Py.RawStr " 004 "; Py.RawInt 2; Py.RawStr "1"]
                 Demo.runner)) =
    ["002"; "004"; "001"]
  /\ cohort (fst (subjects_setter Demo.all_participants
                    [Py.RawStr "1"; Py.RawStr "001"; Py.RawInt 1] Demo.runner)) =
     ["001"].
Proof.
  assert (H002 : "002" ∈ Demo.all_participants) by compute_done.
  assert (H004 : "004" ∈ Demo.all_participants) by compute_done.
  assert (H001 : "001" ∈ Demo.all_participants) by compute_done.
  destruct (explicit_selection_canonical Demo.all_participants
              [Py.RawStr "2"; Py.RawStr " 004 "; Py.RawInt 2; Py.RawStr "1"]
              ["002"; "004"; "002"; "001"] Demo.runner Demo.pipeline)
    as (_ & Hcohort & _ & _ & Hone).
  - reflexivity.
  - repeat constructor.
  - repeat constructor; assumption.
  - split; [exact Hcohort | exact (proj2 (Hone H001))].
Defined.

Lemma explicit_selection_rejects_demo :
  exists y cy,
    (y ∈ ([Py.RawStr "2"] ++ [Py.RawStr "999"])%list)
    /\ canonical y = Ok cy /\ (cy ∉ Demo.all_participants)
    /\ subjects_setter Demo.all_participants
         ([Py.RawStr "2"] ++ Py.RawStr "999" :: [Py.RawStr "abc"])%list Demo.runner =
       (Demo.runner, Raise (InvalidSubjectError y))
    /\ cohort (fst (subjects_setter Demo.all_participants
                      ([Py.RawStr "2"] ++ Py.RawStr "999" :: [Py.RawStr "abc"])%list
                      Demo.runner)) = cohort Demo.runner.
Proof.
  apply (explicit_selection_rejects Demo.all_participants
           [Py.RawStr "2"] [Py.RawStr "abc"] (Py.RawStr "999") "999" Demo.runner).
  - constructor; [exists "002"; reflexivity | constructor].
  - reflexivity.
  - compute_done.
Defined.

(** C5 as stated fails: when an identifier that cannot be read as an integer
    comes first, the error is the ValueError of [int], not the error of an
    invalid subject. *)
Lemma explicit_selection_unreadable_first :
  ~ (forall (universe : list string) (value : list Py.Raw) (self : PipelineRunner),
        (exists x c, x ∈ value /\ canonical x = Ok c /\ c ∉ universe) ->
        exists y, subjects_setter universe value self =
                    (self, Raise (InvalidSubjectError y))).
Proof.
  intros H.
  destruct (H Demo.all_participants [Py.RawStr "abc"; Py.RawStr "999"] Demo.runner)
    as [y Hy].
  - exists (Py.RawStr "999"), "999". split; [|split].
    + apply elem_of_cons. right. apply elem_of_cons. left. reflexivity.
    + reflexivity.
    + compute_done.
  - unfold subjects_setter in Hy. simpl in Hy. discriminate Hy.
Qed.

Lemma cohort_after_selection_demo :
  exists l,
    random_nb_subjects_setter Demo.participants 4 Demo.rng Demo.runner =
      (mkRunner (Some (set_subject_list l Demo.pipeline)) "2T6S", Ok tt)
    /\ cohort (fst (random_nb_subjects_setter Demo.participants 4 Demo.rng
                      Demo.runner)) = l
    /\ length l = 4%nat
    /\ Forall (fun c => c ∈ Demo.participants "2T6S") l.
Proof.
  apply (cohort_after_selection Demo.all_participants Demo.participants
           Demo.participants_subset Demo.runner Demo.pipeline).
  - reflexivity.
  - discriminate.
Defined.

(** C2 as stated fails: four identifiers drawn from a pool of three cannot
    be distinct, and the list is stored as drawn. *)
Lemma random_selection_repeats :
  ~ (forall (get_participants : string -> list string) (k : Z) (g : Py.Rng)
            (self self' : PipelineRunner) (p : Pipeline),
        _pipeline self = Some p ->
        NoDup (subject_list p) ->
        random_nb_subjects_setter get_participants k g self = (self', Ok tt) ->
        exists p', _pipeline self' = Some p' /\ NoDup (subject_list p')).
Proof.
  intros H.
  destruct (H Demo.participants 4 Demo.rng Demo.runner
              (mkRunner (Some (set_subject_list ["001"; "001"; "002"; "004"]
                                 Demo.pipeline)) "2T6S")
              Demo.pipeline) as (p' & Hp' & Hnodup).
  - reflexivity.
  - constructor.
  - reflexivity.
  - simpl in Hp'. injection Hp' as <-. simpl in Hnodup.
    apply NoDup_cons in Hnodup as [Hnotin _]. apply Hnotin.
    apply elem_of_cons. left. reflexivity.
Qed.

(** * Further properties *)

(** ** More on dispatch *)

Section DispatchMore.

Variable World : Type.
Variable nipype_run : Workflow -> RunArgs -> World -> World * result unit.

Local Abbreviation launch_sub := (launch_sub_workflows nipype_run).
Local Abbreviation launch := (launch_workflows nipype_run).

Lemma generate_workflow_list_stages (first_level_only group_level_only : bool)
    (p : Pipeline) (s : Sys World) :
  generate_workflow_list first_level_only group_level_only p s =
    (mkSys (world s)
       (trace s ++ map Produced (stages_of_scope first_level_only group_level_only)),
     Ok (map (stage_value p) (stages_of_scope first_level_only group_level_only))).
Proof.
  unfold generate_workflow_list, produce, emit, bind, ret, stages_of_scope.
  destruct first_level_only, group_level_only; simpl;
    repeat rewrite <- app_assoc; simpl; rewrite ?app_nil_r; try reflexivity.
  destruct s; reflexivity.
Qed.

(** With a valid scope, [start] is the print, the producer calls, and
    the launch of what they returned. *)
Lemma start_valid_scope (self : PipelineRunner) (p : Pipeline)
    (nb_procs : Z) (first_level_only group_level_only : bool) (s : Sys World) :
  _pipeline self = Some p ->
  (first_level_only && group_level_only)%bool = false ->
  start nipype_run self nb_procs first_level_only group_level_only s =
  launch nb_procs
    (map (stage_value p) (stages_of_scope first_level_only group_level_only))
    (mkSys (world s)
       (trace s ++ Printed (_team_id self) (subject_list p)
          :: map Produced (stages_of_scope first_level_only group_level_only))).
Proof.
  intros Hp Hscope. unfold start. rewrite Hp, Hscope.
  unfold bind at 1. unfold emit at 1. unfold bind at 1.
  rewrite generate_workflow_list_stages. cbn [world trace].
  rewrite <- app_assoc. reflexivity.
Qed.

(** X1. No workflow is run before the stage list is complete. The stage
    producers being functions that return (a producer that raises is not
    covered), in a call of [start] with a valid scope and whatever the
    launch does afterwards, the trace is the print, then the calls of all
    the producers of the scope in order, then only runs. *)
Theorem start_builds_before_it_runs (self : PipelineRunner) (p : Pipeline)
    (nb_procs : Z) (first_level_only group_level_only : bool) (s : Sys World) :
  _pipeline self = Some p ->
  (first_level_only && group_level_only)%bool = false ->
  exists runs,
    trace (fst (start nipype_run self nb_procs first_level_only group_level_only s)) =
      (trace s ++ Printed (_team_id self) (subject_list p)
         :: map Produced (stages_of_scope first_level_only group_level_only)
         ++ runs)%list
    /\ Forall (run_event nb_procs) runs.
Proof.
  intros Hp Hscope. rewrite (start_valid_scope self p) by assumption.
  destruct (launch_workflows_extends World nipype_run nb_procs
              (map (stage_value p) (stages_of_scope first_level_only group_level_only))
              (mkSys (world s)
                 (trace s ++ Printed (_team_id self) (subject_list p)
                    :: map Produced (stages_of_scope first_level_only group_level_only))))
    as (runs & Htrace & Hruns).
  exists runs. split; [|exact Hruns].
  rewrite Htrace. cbn [trace]. rewrite <- app_assoc. reflexivity.
Qed.

(** X2. When every stage of a valid scope conforms and no run fails,
    [start] returns normally and has run each workflow of each stage once,
    in the order preprocessing, run level, subject level, group level and,
    inside a list, in the order of the list: the world it leaves is the one
    obtained by these runs made one after the other from the initial world,
    each with the arguments that [nb_procs] selects. *)
Theorem start_runs_every_unit (self : PipelineRunner) (p : Pipeline)
    (nb_procs : Z) (first_level_only group_level_only : bool) (s : Sys World) :
  _pipeline self = Some p ->
  (first_level_only && group_level_only)%bool = false ->
  (forall w a x, snd (nipype_run w a x) = Ok tt) ->
  forallb conforming
    (map (stage_value p) (stages_of_scope first_level_only group_level_only)) = true ->
  snd (start nipype_run self nb_procs first_level_only group_level_only s) = Ok tt
  /\ trace (fst (start nipype_run self nb_procs first_level_only group_level_only s)) =
     (trace s ++ Printed (_team_id self) (subject_list p)
        :: map Produced (stages_of_scope first_level_only group_level_only)
        ++ map (fun w => Ran w (run_args nb_procs))
             (units_of (map (stage_value p)
                          (stages_of_scope first_level_only group_level_only))))%list
  /\ world (fst (start nipype_run self nb_procs first_level_only group_level_only s)) =
     fold_left (fun x w => fst (nipype_run w (run_args nb_procs) x))
       (units_of (map (stage_value p)
                    (stages_of_scope first_level_only group_level_only)))
       (world s).
Proof.
  intros Hp Hscope Hok Hconf. rewrite (start_valid_scope self p) by assumption.
  rewrite (launch_workflows_in_order World nipype_run nb_procs _ _ Hconf).
  rewrite (run_in_order_all_ok World nipype_run _ _ _ Hok). cbn [world trace fst snd].
  split; [reflexivity|]. split; [|reflexivity].
  rewrite <- app_assoc. reflexivity.
Qed.

Lemma launch_cons nb_procs (o : PyObj) (wl : list PyObj) (s : Sys World) :
  launch nb_procs (o :: wl) s =
  (run! launch_workflow nipype_run nb_procs o in launch nb_procs wl) s.
Proof. reflexivity. Qed.

(** X3. A failing run aborts the dispatch. When the stages before a list
    have been launched without error, the workflows that precede a workflow
    in the list have run without error, and the run of that workflow
    raises, the launch ends with that very exception right after that run:
    the rest of the list and the later stages are not run. The same holds
    for a workflow that is a stage of its own. *)
Theorem failing_run_aborts (nb_procs : Z) (before after rest : list PyObj)
    (ws : list Workflow) (w : Workflow) (s s1 s2 : Sys World) (x : World)
    (e : Exception) :
  launch nb_procs before s = (s1, Ok tt) ->
  launch_sub nb_procs (map PyWorkflow ws) s1 = (s2, Ok tt) ->
  nipype_run w (run_args nb_procs) (world s2) = (x, Raise e) ->
  launch nb_procs
    (before ++ PyList (map PyWorkflow ws ++ PyWorkflow w :: rest) :: after) s =
    (mkSys x (trace s2 ++ [Ran w (run_args nb_procs)]), Raise e)
  /\ (ws = [] ->
      launch nb_procs (before ++ PyWorkflow w :: after) s =
        (mkSys x (trace s2 ++ [Ran w (run_args nb_procs)]), Raise e)).
Proof.
  intros Hbefore Hws Hrun.
  assert (Hw : run_workflow nipype_run nb_procs w s2 =
               (mkSys x (trace s2 ++ [Ran w (run_args nb_procs)]), Raise e)).
  { unfold run_workflow. rewrite Hrun. reflexivity. }
  split.
  - rewrite launch_workflows_app. unfold bind at 1. rewrite Hbefore.
    rewrite launch_cons. unfold bind at 1. cbn [launch_workflow].
    rewrite launch_sub_workflows_app. unfold bind at 1. rewrite Hws.
    cbn [launch_sub_workflows check_and_run]. unfold bind at 1.
    rewrite Hw. reflexivity.
  - intros ->. simpl in Hws. injection Hws as <-.
    rewrite launch_workflows_app. unfold bind at 1. rewrite Hbefore.
    rewrite launch_cons. unfold bind at 1. cbn [launch_workflow check_and_run].
    rewrite Hw. reflexivity.
Qed.

(** X4. A stage that is neither [None], nor a list, nor a workflow stops the
    dispatch: the launch behaves as launching the stages before it and then
    raising the AttributeError of an invalid work unit; the later stages are
    not launched. *)
Theorem invalid_stage_stops_dispatch (nb_procs : Z) (before after : list PyObj)
    (repr : string) (s : Sys World) :
  launch nb_procs (before ++ PyOther repr :: after) s =
  (run! launch nb_procs before in raise InvalidWorkUnitError) s.
Proof.
  rewrite launch_workflows_app. apply bind_ext. intros _ s1. reflexivity.
Qed.

(** X5. Stages with nothing to launch ([None], the empty list) do not
    count: dropping them from a stage list changes nothing to what the
    launch does and returns. *)
Theorem empty_stages_are_skipped (nb_procs : Z) (wl : list PyObj) (s : Sys World) :
  launch nb_procs (filter (fun o => nothing_to_launch o = false) wl) s =
  launch nb_procs wl s.
Proof.
  revert s. induction wl as [|o wl IH]; intros s.
  - reflexivity.
  - rewrite filter_cons. destruct (decide (nothing_to_launch o = false)) as [Hn|Hn].
    + rewrite !launch_cons. apply bind_ext. intros _ s1. apply IH.
    + rewrite IH, launch_cons.
      destruct o as [|w|[|o' items]|r]; simpl in Hn; try (exfalso; apply Hn; reflexivity);
        reflexivity.
Qed.

(** X6. A list of workflows is launched exactly as if each workflow were a
    stage of its own. *)
Theorem list_stage_is_flattened (nb_procs : Z) (ws : list Workflow)
    (wl : list PyObj) (s : Sys World) :
  launch nb_procs (PyList (map PyWorkflow ws) :: wl) s =
  launch nb_procs (map PyWorkflow ws ++ wl) s.
Proof.
  rewrite launch_cons. cbn [launch_workflow].
  revert s. induction ws as [|w ws IH]; intros s.
  - reflexivity.
  - cbn [map app]. rewrite launch_cons. cbn [launch_sub_workflows launch_workflow].
    rewrite bind_assoc. apply bind_ext. intros _ s1. apply IH.
Qed.

End DispatchMore.

(** ** More on checking outputs *)

(** X7. The first-level check is the three per-stage checks put end to
    end: missing preprocessing outputs, then missing run-level outputs, then
    missing subject-level outputs. *)
Theorem first_level_check_by_stage (self : PipelineRunner) (p : Pipeline)
    (isfile : FileSystem) :
  _pipeline self = Some p ->
  get_missing_first_level_outputs self isfile =
    Ok (missing_files isfile (get_preprocessing_outputs p)
          ++ missing_files isfile (get_run_level_outputs p)
          ++ missing_files isfile (get_subject_level_outputs p))%list.
Proof.
  intros Hp. unfold get_missing_first_level_outputs, missing_files. rewrite Hp.
  rewrite !filter_app, <- app_assoc. reflexivity.
Qed.

(** X8. Files that appear never add to a report: when every file of one
    file system is a file of another, the missing files against the second
    are a sub-list of the missing files against the first; and checking the
    files reported missing reports them all again. *)
Theorem missing_files_shrink (isfile isfile' : FileSystem) (files : list string) :
  (forall f, isfile f = true -> isfile' f = true) ->
  sublist (missing_files isfile' files) (missing_files isfile files)
  /\ missing_files isfile (missing_files isfile files) = missing_files isfile files.
Proof.
  intros Hmore. split.
  - rewrite !missing_files_absent. induction files as [|f files IH]; simpl.
    + constructor.
    + destruct (isfile f) eqn:E.
      * rewrite (Hmore f E). exact IH.
      * destruct (isfile' f); [apply sublist_cons | apply sublist_skip]; exact IH.
  - rewrite !missing_files_absent. induction files as [|f files IH]; simpl.
    + reflexivity.
    + destruct (isfile f) eqn:E; [exact IH|]. simpl. rewrite E, IH. reflexivity.
Qed.

(** ** More on team assignment *)

Section TeamMore.

Variable implemented_pipelines : gmap string (option string).
Variable class_type : string -> string -> result Pipeline.

(** X9. A runner exists only for an implemented team: when the constructor
    returns a runner, the registry maps its team ID to a class name, the
    pipeline of the runner is the instance this class returned, and the team
    ID of the runner is the key given. *)
Theorem constructed_runner_is_implemented (team_id : string) (self : PipelineRunner) :
  new_PipelineRunner implemented_pipelines class_type team_id = Ok self ->
  exists cls p,
    implemented_pipelines !! team_id = Some (Some cls)
    /\ class_type team_id cls = Ok p
    /\ self = mkRunner (Some p) team_id.
Proof.
  unfold new_PipelineRunner, init, team_id_setter; simpl.
  destruct (implemented_pipelines !! team_id) as [[cls|]|]; try discriminate.
  destruct (class_type team_id cls) as [p|e] eqn:Hp; try discriminate.
  intros [= <-]. exists cls, p. auto.
Qed.

(** X10. A team assignment that succeeds forgets the runner it started
    from: the runner it leaves is the same from any starting runner, so the
    pipeline and the subject list held before are gone. A second assignment
    of the same key, failed or not, changes nothing more. *)
Theorem team_assignment_replaces (key : string) (self self' r : PipelineRunner) :
  team_id_setter implemented_pipelines class_type key self = (r, Ok tt) ->
  team_id_setter implemented_pipelines class_type key self' = (r, Ok tt)
  /\ (forall self0,
        team_id_setter implemented_pipelines class_type key
          (fst (team_id_setter implemented_pipelines class_type key self0)) =
        team_id_setter implemented_pipelines class_type key self0).
Proof.
  unfold team_id_setter; simpl. intros H. split.
  - destruct (implemented_pipelines !! key) as [[cls|]|]; try discriminate.
    destruct (class_type key cls) as [p|e]; try discriminate.
    injection H as <-. reflexivity.
  - intros self0.
    destruct (implemented_pipelines !! key) as [[cls|]|]; try reflexivity.
    destruct (class_type key cls) as [p|e]; reflexivity.
Qed.

End TeamMore.

(** ** Reading back what [str] wrote *)

Lemma append_String (c : ascii) (s t : string) :
  String c s ++ t = String c (s ++ t).
Proof. reflexivity. Qed.

Lemma append_Empty (t : string) : "" ++ t = t.
Proof. reflexivity. Qed.

Lemma rev_app_rev_app (s a b : string) :
  String.rev_app (String.rev_app s a) b = String.rev_app a (s ++ b).
Proof.
  revert a b. induction s as [|c s IH]; intros a b; simpl.
  - reflexivity.
  - rewrite IH. reflexivity.
Qed.

Lemma append_empty_r (s : string) : s ++ "" = s.
Proof.
  induction s as [|c s IH]; [reflexivity|].
  rewrite append_String, IH. reflexivity.
Qed.

Lemma no_space_rev_app (s a : string) :
  no_space (String.rev_app s a) = (no_space s && no_space a)%bool.
Proof.
  revert a. induction s as [|c s IH]; intros a; simpl.
  - reflexivity.
  - rewrite IH. simpl. destruct (Py.is_space c), (no_space s), (no_space a); reflexivity.
Qed.

Lemma lstrip_no_space (s : string) : no_space s = true -> Py.lstrip s = s.
Proof.
  destruct s as [|c s]; simpl; [reflexivity|].
  destruct (Py.is_space c); [discriminate | reflexivity].
Qed.

Lemma strip_no_space (s : string) : no_space s = true -> Py.strip s = s.
Proof.
  intros H. unfold Py.strip, String.rev.
  rewrite (lstrip_no_space s H), lstrip_no_space.
  - rewrite rev_app_rev_app. simpl. apply append_empty_r.
  - rewrite no_space_rev_app, H. reflexivity.
Qed.

Lemma no_space_string_of_uint (d : Decimal.uint) :
  no_space (NilEmpty.string_of_uint d) = true.
Proof. induction d; simpl; try reflexivity; exact IHd. Qed.

Lemma no_space_zeros (k : nat) : no_space (Py.zeros k) = true.
Proof. induction k; simpl; [reflexivity | exact IHk]. Qed.

Lemma no_space_append (s t : string) :
  no_space (s ++ t) = (no_space s && no_space t)%bool.
Proof.
  induction s as [|c s IH]; [reflexivity|].
  rewrite append_String. simpl. rewrite IH. destruct (Py.is_space c); reflexivity.
Qed.

Lemma digits_string_of_uint (d : Decimal.uint) (acc : Z) (b : bool) :
  d <> Decimal.Nil \/ b = true ->
  Py.digits acc b (NilEmpty.string_of_uint d) = Some (uint_value acc d).
Proof.
  revert acc b. induction d; intros acc b Hb; simpl;
    try (apply IHd; right; reflexivity).
  destruct Hb as [Hb | ->]; [contradiction | reflexivity].
Qed.

Lemma digits_zeros (k : nat) (s : string) (b : bool) :
  (0 < k)%nat ->
  Py.digits 0 b (Py.zeros k ++ s) = Py.digits 0 true s.
Proof.
  intros Hk. revert b. induction k as [|k IH]; intros b; [lia|].
  cbn [Py.zeros]. rewrite append_String. cbn [Py.digits].
  change (Py.digit_of "0") with (Some 0). cbn iota. change (10 * 0 + 0) with 0.
  destruct k as [|k]; [reflexivity|].
  apply (IH (Nat.lt_0_succ k) true).
Qed.

Lemma of_uint_acc_value (d : Decimal.uint) (acc : positive) :
  Z.pos (Pos.of_uint_acc d acc) = uint_value (Z.pos acc) d.
Proof.
  revert acc. induction d; intros acc; simpl; try reflexivity;
    rewrite IHd; f_equal; lia.
Qed.

Lemma of_uint_value (d : Decimal.uint) : Z.of_N (Pos.of_uint d) = uint_value 0 d.
Proof.
  induction d; simpl; try reflexivity; try exact IHd;
    rewrite of_uint_acc_value; reflexivity.
Qed.

Lemma uint_value_to_uint (p : positive) : uint_value 0 (Pos.to_uint p) = Z.pos p.
Proof. rewrite <- of_uint_value, Unsigned.of_to. reflexivity. Qed.

Lemma to_uint_not_Nil (p : positive) : Pos.to_uint p <> Decimal.Nil.
Proof.
  intros H. pose proof (Unsigned.of_to p) as Hp. rewrite H in Hp. discriminate Hp.
Qed.

Lemma count_digits_le (s : string) : (Py.count_digits s <= String.length s)%nat.
Proof.
  induction s as [|a s IH]; simpl; [lia|]. destruct (Py.digit_of a); lia.
Qed.

Lemma count_digits_append (s t : string) :
  Py.count_digits (s ++ t) = (Py.count_digits s + Py.count_digits t)%nat.
Proof.
  induction s as [|a s IH]; [reflexivity|].
  rewrite append_String. simpl. rewrite IH. destruct (Py.digit_of a); reflexivity.
Qed.

Lemma length_append (s t : string) :
  String.length (s ++ t) = (String.length s + String.length t)%nat.
Proof.
  induction s as [|a s IH]; [reflexivity|].
  rewrite append_String. simpl. rewrite IH. reflexivity.
Qed.

Lemma count_digits_zeros (k : nat) :
  Py.count_digits (Py.zeros k) = k /\ String.length (Py.zeros k) = k.
Proof. induction k as [|k [IH1 IH2]]; simpl; [split; reflexivity | rewrite IH1, IH2; split; reflexivity]. Qed.

Lemma count_digits_string_of_uint (d : Decimal.uint) :
  Py.count_digits (NilEmpty.string_of_uint d) =
  String.length (NilEmpty.string_of_uint d).
Proof. induction d; simpl; try reflexivity; rewrite IHd; reflexivity. Qed.

(** A string of digits is its own run of digits. *)
Lemma span_run_digits (s : string) :
  Py.count_digits s = String.length s -> Py.span_run s = (s, EmptyString).
Proof.
  induction s as [|a s IH]; simpl; [reflexivity|].
  destruct (Py.digit_of a) as [d|]; simpl.
  - intros [= H]. rewrite (IH H). reflexivity.
  - intros H. pose proof (count_digits_le s). lia.
Qed.

Lemma int_of_literal_digits (s : string) (n : Z) :
  Py.count_digits s = String.length s ->
  (Py.count_digits s <= Py.int_max_str_digits)%nat ->
  Py.digits 0 false s = Some n ->
  Py.int_of_literal s = Ok n.
Proof.
  intros Hall Hmax Hn. unfold Py.int_of_literal.
  rewrite (span_run_digits s Hall), Hn.
  destruct (Nat.ltb_spec Py.int_max_str_digits (Py.count_digits s)); [lia | reflexivity].
Qed.

Lemma string_of_uint_head (d : Decimal.uint) :
  d <> Decimal.Nil ->
  exists c s', NilEmpty.string_of_uint d = String c s' /\ Py.digit_of c <> None
               /\ c <> "+"%char /\ c <> "-"%char.
Proof.
  intros Hd. destruct d; [contradiction | ..]; simpl;
    eexists _, _; (split; [reflexivity|]); repeat split; discriminate.
Qed.

Lemma digits_padded (k : nat) (d : Decimal.uint) (b : bool) :
  d <> Decimal.Nil ->
  Py.digits 0 b (Py.zeros k ++ NilEmpty.string_of_uint d) = Some (uint_value 0 d).
Proof.
  intros Hd. destruct k as [|k].
  - apply digits_string_of_uint. left. exact Hd.
  - rewrite digits_zeros by apply Nat.lt_0_succ. apply digits_string_of_uint.
    right. reflexivity.
Qed.

Lemma zfill_unsigned (width : nat) (c : ascii) (s : string) :
  c <> "+"%char -> c <> "-"%char ->
  Py.zfill width (String c s) =
  Py.zeros (width - String.length (String c s)) ++ String c s.
Proof.
  intros Hplus Hminus. unfold Py.zfill.
  destruct c as [[] [] [] [] [] [] [] []]; try reflexivity; contradiction.
Qed.

Lemma padded_all_digits (k : nat) (d : Decimal.uint) :
  Py.count_digits (Py.zeros k ++ NilEmpty.string_of_uint d) =
  String.length (Py.zeros k ++ NilEmpty.string_of_uint d)
  /\ Py.count_digits (Py.zeros k ++ NilEmpty.string_of_uint d) =
     (k + String.length (NilEmpty.string_of_uint d))%nat.
Proof.
  rewrite count_digits_append, length_append, count_digits_string_of_uint.
  destruct (count_digits_zeros k) as [-> ->]. split; reflexivity.
Qed.

Lemma int_of_padded_uint (k : nat) (d : Decimal.uint) :
  d <> Decimal.Nil ->
  (k + String.length (NilEmpty.string_of_uint d) <= Py.int_max_str_digits)%nat ->
  Py.int_of_str (Py.zeros k ++ NilEmpty.string_of_uint d) = Ok (uint_value 0 d).
Proof.
  intros Hd Hmax. destruct (padded_all_digits k d) as [Hall Hcount].
  assert (Hlit : Py.int_of_literal (Py.zeros k ++ NilEmpty.string_of_uint d) =
                 Ok (uint_value 0 d)).
  { apply int_of_literal_digits; [exact Hall | lia | apply digits_padded, Hd]. }
  unfold Py.int_of_str. rewrite strip_no_space
    by (rewrite no_space_append, no_space_zeros, no_space_string_of_uint; reflexivity).
  assert (Hhead : exists c s', Py.zeros k ++ NilEmpty.string_of_uint d = String c s'
                               /\ c <> "+"%char /\ c <> "-"%char).
  { destruct k as [|k].
    - destruct (string_of_uint_head d Hd) as (c & s' & Hs & _ & Hp & Hm).
      exists c, s'. auto.
    - exists "0"%char, (Py.zeros k ++ NilEmpty.string_of_uint d).
      repeat split; discriminate. }
  destruct Hhead as (c & s' & Hs & Hp & Hm). rewrite Hs in Hlit |- *.
  destruct c as [[] [] [] [] [] [] [] []]; try exact Hlit; contradiction.
Qed.

Lemma int_of_padded_negative (k : nat) (d : Decimal.uint) :
  d <> Decimal.Nil ->
  (k + String.length (NilEmpty.string_of_uint d) <= Py.int_max_str_digits)%nat ->
  Py.int_of_str (String "-" (Py.zeros k ++ NilEmpty.string_of_uint d)) =
  Ok (- uint_value 0 d).
Proof.
  intros Hd Hmax. destruct (padded_all_digits k d) as [Hall Hcount].
  unfold Py.int_of_str. rewrite strip_no_space.
  - rewrite (int_of_literal_digits _ (uint_value 0 d));
      [reflexivity | exact Hall | lia | apply digits_padded, Hd].
  - simpl. rewrite no_space_append, no_space_zeros, no_space_string_of_uint.
    reflexivity.
Qed.

(** [int] reads back what [str], padded by [zfill], wrote. *)
Lemma int_of_padded_str (width : nat) (n : Z) (s : string) :
  (width <= Py.int_max_str_digits)%nat ->
  Py.str_of_int n = Ok s ->
  Py.int_of_str (Py.zfill width s) = Ok n.
Proof.
  intros Hwidth. unfold Py.str_of_int.
  destruct (Nat.ltb_spec Py.int_max_str_digits (Py.count_digits (Py.decimal n)))
    as [|Hmax]; [discriminate|].
  intros [= <-]. revert Hmax. unfold Py.decimal. destruct n as [|p|p]; simpl.
  - intros _. change (Py.zfill width "0") with (Py.zeros (width - 1) ++ "0").
    apply (int_of_padded_uint (width - 1) (Decimal.D0 Decimal.Nil)); [discriminate|].
    simpl. unfold Py.int_max_str_digits in *. lia.
  - pose proof (to_uint_not_Nil p) as Hd.
    assert (Hs : NilZero.string_of_uint (Pos.to_uint p) =
                 NilEmpty.string_of_uint (Pos.to_uint p)).
    { destruct (Pos.to_uint p); [contradiction | reflexivity ..]. }
    rewrite Hs, count_digits_string_of_uint. intros Hmax.
    destruct (string_of_uint_head _ Hd) as (c & s' & Hc & _ & Hplus & Hminus).
    rewrite Hc, zfill_unsigned by assumption. rewrite <- Hc.
    rewrite int_of_padded_uint by (try exact Hd; lia).
    rewrite uint_value_to_uint. reflexivity.
  - pose proof (to_uint_not_Nil p) as Hd.
    assert (Hs : NilZero.string_of_uint (Pos.to_uint p) =
                 NilEmpty.string_of_uint (Pos.to_uint p)).
    { destruct (Pos.to_uint p); [contradiction | reflexivity ..]. }
    rewrite Hs, count_digits_string_of_uint. intros Hmax.
    change (Py.zfill width (String "-" (NilEmpty.string_of_uint (Pos.to_uint p))))
      with (String "-" (Py.zeros (width - String.length
                                     (String "-" (NilEmpty.string_of_uint (Pos.to_uint p))))
                          ++ NilEmpty.string_of_uint (Pos.to_uint p))).
    rewrite int_of_padded_negative by (try exact Hd; simpl; lia).
    rewrite uint_value_to_uint. reflexivity.
Qed.

(** X13. [int] reads back what [str] and [zfill] wrote: for every integer
    that [str] accepts (at most 4300 digits) and every width up to 4300,
    the padded decimal writing of the integer is read as that integer, sign
    and leading zeros included; so the canonical form of an identifier is
    read back as the integer that the identifier denotes. *)
Theorem int_reads_back_padded_str (width : nat) (n : Z) (s : string) :
  (width <= 4300)%nat ->
  Py.str_of_int n = Ok s ->
  Py.int (Py.RawStr (Py.zfill width s)) = Ok n
  /\ (forall x c, Py.int x = Ok n -> canonical x = Ok c ->
                  Py.int (Py.RawStr c) = Ok n).
Proof.
  intros Hwidth Hs. split.
  - apply int_of_padded_str; assumption.
  - intros x c Hx. unfold canonical. rewrite Hx. cbn [bind_result].
    rewrite Hs. cbn [bind_result]. intros [= <-].
    apply int_of_padded_str; [unfold Py.int_max_str_digits; lia | exact Hs].
Qed.

(** ** More on cohort selection *)

Lemma first_occurrences_of_NoDup (l : list string) :
  NoDup l -> first_occurrences l = l.
Proof.
  induction 1 as [|x l Hx Hl IH]; simpl; [reflexivity|].
  rewrite IH. f_equal. clear IH Hl. induction l as [|y l IH]; [reflexivity|].
  rewrite filter_cons.
  destruct (decide (y <> x)) as [_|Hyx].
  - f_equal. apply IH. intros H. apply Hx. apply elem_of_cons. right. exact H.
  - exfalso. apply Hx. apply elem_of_cons. left.
    destruct (decide (x = y)) as [Heq|Hne]; [exact Heq|].
    exfalso. apply Hyx. intros ->. apply Hne. reflexivity.
Qed.

Lemma first_occurrences_length (l : list string) :
  (length (first_occurrences l) <= length l)%nat.
Proof.
  induction l as [|x l IH]; simpl; [lia|].
  pose proof (length_filter (fun y => y <> x) (first_occurrences l)). lia.
Qed.

Section CohortMore.

Variable get_all_participants : list string.
Variable get_participants : string -> list string.
Variable get_participants_subset : Z -> list string.

Local Abbreviation set_subjects := (subjects_setter get_all_participants).
Local Abbreviation set_random := (random_nb_subjects_setter get_participants).
Local Abbreviation set_subset := (nb_subjects_setter get_participants_subset).

Lemma subjects_setter_ok (value : list Py.Raw) (ids : list string)
    (self : PipelineRunner) (p : Pipeline) :
  _pipeline self = Some p ->
  canonical_all value = Ok ids ->
  Forall (fun c => c ∈ get_all_participants) ids ->
  set_subjects value self =
    (mkRunner (Some (set_subject_list (first_occurrences ids) p)) (_team_id self), Ok tt).
Proof.
  intros Hp Hv Hall. unfold subjects_setter.
  rewrite (check_subjects_ok get_all_participants value ids Hv Hall), Hv.
  unfold assign_subject_list. rewrite Hp, fromkeys_first_occurrences. reflexivity.
Qed.

Lemma subjects_setter_ok_inv (value : list Py.Raw) (self self' : PipelineRunner) :
  set_subjects value self = (self', Ok tt) ->
  exists ids p,
    _pipeline self = Some p
    /\ canonical_all value = Ok ids
    /\ Forall (fun c => c ∈ get_all_participants) ids
    /\ self' = mkRunner (Some (set_subject_list (first_occurrences ids) p))
                 (_team_id self).
Proof.
  unfold subjects_setter.
  destruct (check_subjects get_all_participants value) as [[]|e] eqn:Hcheck;
    [|discriminate].
  destruct (check_subjects_ok_inv get_all_participants value Hcheck)
    as (ids & Hids & Hall).
  rewrite Hids. unfold assign_subject_list.
  destruct (_pipeline self) as [p|]; [|discriminate].
  rewrite fromkeys_first_occurrences. intros [= <-].
  exists ids, p. auto.
Qed.

(** X11. A selection that raises leaves the runner as it was: each of the
    three setters either returns normally or hands back the runner it was
    given. *)
Theorem failed_selection_changes_nothing (self : PipelineRunner) :
  (forall value,
      snd (set_subjects value self) = Ok tt \/ fst (set_subjects value self) = self)
  /\ (forall k g,
      snd (set_random k g self) = Ok tt \/ fst (set_random k g self) = self)
  /\ (forall k,
      snd (set_subset k self) = Ok tt \/ fst (set_subset k self) = self).
Proof.
  assert (Hassign : forall l,
             snd (assign_subject_list l self) = Ok tt
             \/ fst (assign_subject_list l self) = self).
  { intros l. unfold assign_subject_list.
    destruct (_pipeline self); [left | right]; reflexivity. }
  split; [|split].
  - intros value. unfold subjects_setter.
    destruct (check_subjects get_all_participants value) as [[]|e];
      [|right; reflexivity].
    destruct (canonical_all value); [apply Hassign | right; reflexivity].
  - intros k g. unfold random_nb_subjects_setter.
    destruct (Py.choices (get_participants (_team_id self)) k g).1;
      [apply Hassign | right; reflexivity].
  - intros k. apply Hassign.
Qed.

(** X12. Explicit selection keeps the order of the input: identifiers
    whose canonical forms are pairwise distinct give exactly these forms, in
    the order given; in general the subject list is never longer than the
    input, and it is empty only for an empty input. *)
Theorem explicit_selection_keeps_order (value : list Py.Raw) (ids : list string)
    (self : PipelineRunner) (p : Pipeline) :
  _pipeline self = Some p ->
  Forall2 (fun x c => canonical x = Ok c) value ids ->
  Forall (fun c => c ∈ get_all_participants) ids ->
  (NoDup ids -> cohort (fst (set_subjects value self)) = ids)
  /\ (length (cohort (fst (set_subjects value self))) <= length value)%nat
  /\ (cohort (fst (set_subjects value self)) = [] <-> value = []).
Proof.
  intros Hp Hcan Hall.
  rewrite (subjects_setter_ok value ids self p Hp
             (proj2 (canonical_all_Forall2 value ids) Hcan) Hall).
  unfold cohort. simpl. split; [|split].
  - apply first_occurrences_of_NoDup.
  - rewrite (Forall2_length _ _ _ Hcan). apply first_occurrences_length.
  - destruct Hcan as [|x c value ids Hx Hcan]; simpl; [tauto|].
    split; discriminate.
Qed.

Lemma canonical_inv (x : Py.Raw) (c : string) :
  canonical x = Ok c ->
  exists n s, Py.int x = Ok n /\ Py.str_of_int n = Ok s /\ c = Py.zfill 3 s
              /\ Py.int_of_str c = Ok n.
Proof.
  unfold canonical. destruct (Py.int x) as [n|e]; cbn [bind_result]; [|discriminate].
  destruct (Py.str_of_int n) as [s|e] eqn:Hs; cbn [bind_result]; [|discriminate].
  intros [= <-]. exists n, s.
  split; [reflexivity|]. split; [exact Hs|]. split; [reflexivity|].
  apply int_of_padded_str; [unfold Py.int_max_str_digits; lia | exact Hs].
Qed.

Lemma canonical_of_canonical (x : Py.Raw) (c : string) :
  canonical x = Ok c -> canonical (Py.RawStr c) = Ok c.
Proof.
  intros Hx. destruct (canonical_inv x c Hx) as (n & s & _ & Hs & -> & Hback).
  unfold canonical. cbn [Py.int]. rewrite Hback. cbn [bind_result].
  rewrite Hs. reflexivity.
Qed.

(** X14. Canonical forms are stable: the canonical form of an identifier,
    given back as a string, is its own canonical form; and two identifiers
    have the same canonical form only when they denote the same integer. *)
Theorem canonical_form_is_stable (x : Py.Raw) (c : string) :
  canonical x = Ok c ->
  canonical (Py.RawStr c) = Ok c
  /\ (forall y, canonical y = Ok c -> Py.int y = Py.int x).
Proof.
  intros Hx. split; [exact (canonical_of_canonical x c Hx)|].
  intros y Hy.
  destruct (canonical_inv x c Hx) as (n & _ & Hn & _ & _ & Hback).
  destruct (canonical_inv y c Hy) as (m & _ & Hm & _ & _ & Hback').
  rewrite Hn, Hm. congruence.
Qed.

Lemma canonical_all_stable (value : list Py.Raw) (ids l : list string) :
  canonical_all value = Ok ids ->
  (forall c, c ∈ l -> c ∈ ids) ->
  canonical_all (map Py.RawStr l) = Ok l.
Proof.
  intros Hv Hl. apply canonical_all_Forall2 in Hv.
  induction l as [|c l IH]; simpl; [reflexivity|].
  assert (Hc : c ∈ ids) by (apply Hl, elem_of_cons; left; reflexivity).
  apply list_elem_of_lookup in Hc as [i Hi].
  destruct (Forall2_lookup_r _ _ _ _ _ Hv Hi) as (x & _ & Hx).
  rewrite (canonical_of_canonical x c Hx). simpl. rewrite IH; [reflexivity|].
  intros c' Hc'. apply Hl, elem_of_cons. right. exact Hc'.
Qed.

(** X15. Selecting the stored subject list again changes nothing: after a
    successful explicit selection, giving the subject list of the runner to
    the setter returns normally and leaves the same runner. *)
Theorem reselecting_the_cohort (value : list Py.Raw) (self self' : PipelineRunner) :
  set_subjects value self = (self', Ok tt) ->
  set_subjects (map Py.RawStr (cohort self')) self' = (self', Ok tt).
Proof.
  intros H. destruct (subjects_setter_ok_inv value self self' H)
    as (ids & p & Hp & Hids & Hall & ->).
  unfold cohort. simpl.
  rewrite (subjects_setter_ok (map Py.RawStr (first_occurrences ids))
             (first_occurrences ids) _ (set_subject_list (first_occurrences ids) p)).
  - rewrite (first_occurrences_of_NoDup _ (first_occurrences_NoDup ids)). reflexivity.
  - reflexivity.
  - apply (canonical_all_stable value ids); [exact Hids|].
    intros c. apply first_occurrences_elem.
  - rewrite Forall_forall in Hall |- *. intros c Hc.
    apply Hall, first_occurrences_elem, Hc.
Qed.

(** X16. The edges of random selection, on a runner that has a pipeline:
    asking for no subject (or a negative number of them) empties the subject
    list, even with an empty pool; asking for at least one subject from an
    empty pool raises IndexError and leaves the runner as it was. *)
Theorem random_selection_edges (self : PipelineRunner) (p : Pipeline)
    (k : Z) (g : Py.Rng) :
  _pipeline self = Some p ->
  (k <= 0 ->
   snd (set_random k g self) = Ok tt
   /\ cohort (fst (set_random k g self)) = []
   /\ _team_id (fst (set_random k g self)) = _team_id self)
  /\ (0 < k -> get_participants (_team_id self) = [] ->
      set_random k g self = (self, Raise (IndexError "list index out of range"))).
Proof.
  intros Hp. unfold random_nb_subjects_setter, Py.choices. split.
  - intros Hk. replace (Z.to_nat k) with O by lia. simpl.
    unfold assign_subject_list, cohort. rewrite Hp. simpl. auto.
  - intros Hk Hpool. rewrite Hpool.
    destruct (Z.to_nat k) as [|k'] eqn:Ek; [lia|]. reflexivity.
Qed.

(** X17. Random selection of more subjects than the pool holds always
    stores a repeated identifier, whatever the generator draws. *)
Theorem random_selection_beyond_pool (self : PipelineRunner) (p : Pipeline)
    (k : Z) (g : Py.Rng) :
  _pipeline self = Some p ->
  get_participants (_team_id self) <> [] ->
  Z.of_nat (length (get_participants (_team_id self))) < k ->
  snd (set_random k g self) = Ok tt
  /\ ~ NoDup (cohort (fst (set_random k g self))).
Proof.
  intros Hp Hpool Hk. unfold random_nb_subjects_setter, Py.choices.
  destruct (choices_loop_ok (get_participants (_team_id self)) (Z.to_nat k) g Hpool)
    as (l & Hl & Hlen & Hall).
  rewrite Hl. unfold assign_subject_list, cohort. rewrite Hp. simpl.
  split; [reflexivity|]. intros Hnodup.
  assert (Hsub : l ⊆+ get_participants (_team_id self)).
  { apply NoDup_submseteq; [exact Hnodup|]. apply Forall_forall, Hall. }
  apply submseteq_length in Hsub. lia.
Qed.

End CohortMore.

(** ** The command line *)

Section ScriptProperties.

Variable implemented_pipelines : gmap string (option string).
Variable class_type : string -> string -> result Pipeline.
Variable get_all_participants : list string.
Variable get_participants : string -> list string.
Variable get_participants_subset : Z -> list string.
Variable set_directories : string -> Pipeline -> Pipeline.
Variable nb_procs : Z.
Variable World : Type.
Variable nipype_run : Workflow -> RunArgs -> World -> World * result unit.

Local Abbreviation script :=
  (Main.main implemented_pipelines class_type get_all_participants get_participants
     get_participants_subset set_directories nb_procs nipype_run).

(** X18. With [--check] nothing is launched: whatever the other arguments
    and however the script ends, no stage producer is called, no workflow is
    run, and the world is left as it was. *)
Theorem check_launches_nothing (arguments : Main.Namespace) (g : Py.Rng)
    (isfile : FileSystem) (s : Sys World) :
  Main.check arguments = true ->
  snd (fst (script arguments g isfile s)) = s.
Proof.
  intros Hcheck. unfold Main.main.
  destruct (Main.initialize _ _ _ arguments) as [runner|e]; [|reflexivity].
  destruct (Main.handle_subjects _ _ _ arguments g runner) as [runner' [[]|e]];
    [|reflexivity].
  rewrite Hcheck. destruct (Main.check_data arguments runner' isfile). reflexivity.
Qed.

(** X19. The team is resolved first: for a team ID that is unknown or not
    implemented the script ends with the error of the team assignment, has
    printed nothing and launched nothing, whatever the subject arguments
    are. *)
Theorem wrong_team_stops_the_script (arguments : Main.Namespace) (g : Py.Rng)
    (isfile : FileSystem) (s : Sys World) :
  Main.team arguments ∉ dom implemented_pipelines
  \/ implemented_pipelines !! Main.team arguments = Some None ->
  exists e,
    (e = UnknownTeamError (Main.team arguments)
     \/ e = PipelineNotImplementedError (Main.team arguments))
    /\ script arguments g isfile s = ([], s, Raise e).
Proof.
  intros H. unfold Main.main, Main.initialize, new_PipelineRunner, init, team_id_setter.
  simpl. destruct H as [H|H].
  - apply not_elem_of_dom in H. rewrite H. simpl.
    exists (UnknownTeamError (Main.team arguments)). auto.
  - rewrite H. simpl. exists (PipelineNotImplementedError (Main.team arguments)). auto.
Qed.

(** X20. [--check] with [-s]: for an implemented team and subjects whose
    canonical forms are participants, the script ends normally; it prints
    the number of distinct subjects, then, unless [-g] is given, the missing
    first-level files and, unless [-f] is given, the missing group-level
    files of the pipeline with its directories set and these subjects. *)
Theorem check_reports_missing_files (arguments : Main.Namespace) (g : Py.Rng)
    (isfile : FileSystem) (s : Sys World) (cls : string) (p : Pipeline)
    (raw ids : list string) :
  Main.check arguments = true ->
  Main.subjects arguments = Some raw ->
  implemented_pipelines !! Main.team arguments = Some (Some cls) ->
  class_type (Main.team arguments) cls = Ok p ->
  Forall2 (fun x c => canonical (Py.RawStr x) = Ok c) raw ids ->
  Forall (fun c => c ∈ get_all_participants) ids ->
  let pipeline :=
    set_subject_list (first_occurrences ids) (set_directories (Main.team arguments) p) in
  script arguments g isfile s =
    ((Main.MissingHeader (Main.team arguments) (length (first_occurrences ids))
        :: (if Main.group arguments then []
            else [Main.FirstLevel
                    (missing_files isfile
                       (get_preprocessing_outputs pipeline
                          ++ get_run_level_outputs pipeline
                          ++ get_subject_level_outputs pipeline))])
        ++ (if Main.first arguments then []
            else [Main.GroupLevel
                    (missing_files isfile (get_group_level_outputs pipeline))]))%list,
     s, Ok tt).
Proof.
  intros Hcheck Hraw Hcls Hp Hcan Hall pipeline.
  unfold Main.main, Main.initialize, new_PipelineRunner, init, team_id_setter.
  simpl. rewrite Hcls, Hp. simpl.
  unfold Main.handle_subjects. rewrite Hraw.
  rewrite (subjects_setter_ok get_all_participants (map Py.RawStr raw) ids _
             (set_directories (Main.team arguments) p)).
  - rewrite Hcheck. unfold Main.check_data, get_missing_first_level_outputs,
      get_missing_group_level_outputs. simpl. fold pipeline.
    destruct (Main.group arguments), (Main.first arguments); simpl;
      rewrite <- ?app_assoc; reflexivity.
  - reflexivity.
  - apply canonical_all_Forall2. apply Forall2_fmap_l. exact Hcan.
  - exact Hall.
Qed.

End ScriptProperties.

(** ** The further properties on the small installation *)

Lemma start_builds_before_it_runs_demo :
  exists runs,
    trace (fst (start DemoMore.run_grp1_fails Demo.runner 1 false false Demo.s0)) =
      (trace Demo.s0 ++ Printed "2T6S" []
         :: map Produced (stages_of_scope false false) ++ runs)%list
    /\ Forall (run_event 1) runs.
Proof.
  apply (start_builds_before_it_runs unit DemoMore.run_grp1_fails Demo.runner
           Demo.pipeline 1 false false Demo.s0); reflexivity.
Defined.

Lemma start_runs_every_unit_demo :
  snd (start DemoMore.run_records Demo.runner 1 false false (mkSys [] [])) = Ok tt
  /\ trace (fst (start DemoMore.run_records Demo.runner 1 false false (mkSys [] []))) =
     [Printed "2T6S" []; Produced Preprocessing; Produced RunLevel;
      Produced SubjectLevel; Produced GroupLevel;
      Ran Demo.w_run RunDefault; Ran Demo.w_sub RunDefault;
      Ran Demo.w_grp1 RunDefault; Ran Demo.w_grp2 RunDefault]
  /\ world (fst (start DemoMore.run_records Demo.runner 1 false false (mkSys [] []))) =
     ["run_level"; "subject_level"; "group_level_1"; "group_level_2"].
Proof.
  apply (start_runs_every_unit (list string) DemoMore.run_records Demo.runner
           Demo.pipeline 1 false false (mkSys [] [])).
  - reflexivity.
  - reflexivity.
  - intros [name] a x. reflexivity.
  - reflexivity.
Defined.

Lemma failing_run_aborts_demo :
  launch_workflows DemoMore.run_grp1_fails 1
    ([PyWorkflow Demo.w_run]
       ++ PyList (map PyWorkflow [] ++ PyWorkflow Demo.w_grp1 :: [PyWorkflow Demo.w_grp2])
       :: [PyWorkflow Demo.w_sub])%list Demo.s0 =
    (mkSys tt ([Ran Demo.w_run RunDefault] ++ [Ran Demo.w_grp1 RunDefault])%list,
     Raise (OtherError "RuntimeError" "node failed")).
Proof.
  apply (failing_run_aborts unit DemoMore.run_grp1_fails 1
           [PyWorkflow Demo.w_run] [PyWorkflow Demo.w_sub] [PyWorkflow Demo.w_grp2]
           [] Demo.w_grp1 Demo.s0
           (mkSys tt [Ran Demo.w_run RunDefault])
           (mkSys tt [Ran Demo.w_run RunDefault]) tt
           (OtherError "RuntimeError" "node failed")); reflexivity.
Defined.

Lemma first_level_check_by_stage_demo :
  get_missing_first_level_outputs
    (mkRunner (Some (set_subject_list ["001"; "002"] Demo.pipeline)) "2T6S")
    Demo.isfile =
    Ok ([] ++ ["run/002"] ++ ["sub/001"; "sub/002"])%list.
Proof.
  apply (first_level_check_by_stage
           (mkRunner (Some (set_subject_list ["001"; "002"] Demo.pipeline)) "2T6S")
           (set_subject_list ["001"; "002"] Demo.pipeline) Demo.isfile).
  reflexivity.
Defined.

Lemma missing_files_shrink_demo :
  sublist (missing_files DemoMore.all_files ["run/001"; "run/002"])
          (missing_files Demo.isfile ["run/001"; "run/002"])
  /\ missing_files Demo.isfile (missing_files Demo.isfile ["run/001"; "run/002"]) =
     missing_files Demo.isfile ["run/001"; "run/002"].
Proof.
  apply (missing_files_shrink Demo.isfile DemoMore.all_files ["run/001"; "run/002"]).
  intros f _. reflexivity.
Defined.

Lemma missing_files_after_delete_demo :
  missing_files DemoMore.one_deleted ["run/001"; "run/002"; "run/001"] =
  filter (fun x => x = "run/001") ["run/001"; "run/002"; "run/001"].
Proof.
  apply (missing_files_after_delete DemoMore.all_files DemoMore.one_deleted
           ["run/001"; "run/002"; "run/001"] "run/001").
  - repeat constructor.
  - reflexivity.
  - intros x Hx. unfold DemoMore.one_deleted, DemoMore.all_files.
    apply String.eqb_neq in Hx. rewrite Hx. reflexivity.
Defined.

Lemma constructed_runner_is_implemented_demo :
  exists cls p,
    Demo.implemented_pipelines !! "2T6S" = Some (Some cls)
    /\ Demo.class_type "2T6S" cls = Ok p
    /\ Demo.runner = mkRunner (Some p) "2T6S".
Proof.
  apply (constructed_runner_is_implemented Demo.implemented_pipelines Demo.class_type
           "2T6S" Demo.runner).
  reflexivity.
Defined.

Lemma team_assignment_replaces_demo :
  team_id_setter Demo.implemented_pipelines Demo.class_type "2T6S"
    (mkRunner (Some Demo.wrong_pipeline) "08MQ") = (Demo.runner, Ok tt).
Proof.
  apply (team_assignment_replaces Demo.implemented_pipelines Demo.class_type
           "2T6S" (mkRunner None "") (mkRunner (Some Demo.wrong_pipeline) "08MQ")
           Demo.runner).
  reflexivity.
Defined.

Lemma explicit_selection_keeps_order_demo :
  cohort (fst (subjects_setter Demo.all_participants
                 [Py.RawStr "4"; Py.RawInt 2; Py.RawStr "001"] Demo.runner)) =
  ["004"; "002"; "001"].
Proof.
  apply (explicit_selection_keeps_order Demo.all_participants
           [Py.RawStr "4"; Py.RawInt 2; Py.RawStr "001"] ["004"; "002"; "001"]
           Demo.runner Demo.pipeline).
  - reflexivity.
  - repeat constructor.
  - repeat constructor; compute_done.
  - compute_done.
Defined.

Lemma canonical_form_is_stable_demo :
  canonical (Py.RawStr "007") = Ok "007"
  /\ (forall y, canonical y = Ok "007" -> Py.int y = Py.int (Py.RawStr " 7 ")).
Proof.
  apply (canonical_form_is_stable (Py.RawStr " 7 ") "007"). reflexivity.
Defined.

Lemma reselecting_the_cohort_demo :
  subjects_setter Demo.all_participants
    (map Py.RawStr
       (cohort (mkRunner (Some (set_subject_list ["002"; "001"] Demo.pipeline)) "2T6S")))
    (mkRunner (Some (set_subject_list ["002"; "001"] Demo.pipeline)) "2T6S") =
  (mkRunner (Some (set_subject_list ["002"; "001"] Demo.pipeline)) "2T6S", Ok tt).
Proof.
  apply (reselecting_the_cohort Demo.all_participants
           [Py.RawStr "2"; Py.RawInt 1; Py.RawStr "02"] Demo.runner).
  reflexivity.
Defined.

Lemma random_selection_edges_demo :
  (snd (random_nb_subjects_setter (fun _ => [])
          0 Demo.rng (mkRunner (Some Demo.wrong_pipeline) "2T6S")) = Ok tt
   /\ cohort (fst (random_nb_subjects_setter (fun _ => [])
                     0 Demo.rng (mkRunner (Some Demo.wrong_pipeline) "2T6S"))) = []
   /\ _team_id (fst (random_nb_subjects_setter (fun _ => [])
                       0 Demo.rng (mkRunner (Some Demo.wrong_pipeline) "2T6S"))) =
      "2T6S")
  /\ random_nb_subjects_setter (fun _ => []) 2 Demo.rng Demo.runner =
    (Demo.runner, Raise (IndexError "list index out of range")).
Proof.
  split.
  - apply (random_selection_edges (fun _ => [])
             (mkRunner (Some Demo.wrong_pipeline) "2T6S") Demo.wrong_pipeline
             0 Demo.rng); [reflexivity | lia].
  - apply (random_selection_edges (fun _ => []) Demo.runner Demo.pipeline 2 Demo.rng);
      [reflexivity | lia | reflexivity].
Defined.

Lemma random_selection_beyond_pool_demo :
  snd (random_nb_subjects_setter Demo.participants 4 Demo.rng Demo.runner) = Ok tt
  /\ ~ NoDup (cohort (fst (random_nb_subjects_setter Demo.participants 4 Demo.rng
                             Demo.runner))).
Proof.
  apply (random_selection_beyond_pool Demo.participants Demo.runner Demo.pipeline
           4 Demo.rng).
  - reflexivity.
  - discriminate.
  - simpl. lia.
Defined.

Lemma check_launches_nothing_demo :
  snd (fst (DemoMain.main DemoMain.check_arguments Demo.rng Demo.isfile Demo.s0)) =
  Demo.s0.
Proof.
  apply (check_launches_nothing Demo.implemented_pipelines Demo.class_type
           Demo.all_participants Demo.participants Demo.participants_subset
           DemoMain.set_directories 1 unit Demo.run_ok DemoMain.check_arguments
           Demo.rng Demo.isfile Demo.s0).
  reflexivity.
Defined.

Lemma wrong_team_stops_the_script_demo :
  exists e,
    (e = UnknownTeamError "XXXX" \/ e = PipelineNotImplementedError "XXXX")
    /\ DemoMain.main DemoMain.wrong_team_arguments Demo.rng Demo.isfile Demo.s0 =
       ([], Demo.s0, Raise e).
Proof.
  apply (wrong_team_stops_the_script Demo.implemented_pipelines Demo.class_type
           Demo.all_participants Demo.participants Demo.participants_subset
           DemoMain.set_directories 1 unit Demo.run_ok DemoMain.wrong_team_arguments
           Demo.rng Demo.isfile Demo.s0).
  left. apply not_elem_of_dom. reflexivity.
Defined.

Lemma check_reports_missing_files_demo :
  DemoMain.main DemoMore.check_first_arguments Demo.rng Demo.isfile Demo.s0 =
    ([Main.MissingHeader "2T6S" 2; Main.FirstLevel ["run/002"; "sub/001"; "sub/002"]],
     Demo.s0, Ok tt).
Proof.
  apply (check_reports_missing_files Demo.implemented_pipelines Demo.class_type
           Demo.all_participants Demo.participants Demo.participants_subset
           DemoMain.set_directories 1 unit Demo.run_ok DemoMore.check_first_arguments
           Demo.rng Demo.isfile Demo.s0 "PipelineTeam2T6S" Demo.pipeline
           ["1"; "001"; "2"] ["001"; "001"; "002"]).
  - reflexivity.
  - reflexivity.
  - reflexivity.
  - reflexivity.
  - repeat constructor.
  - repeat constructor; compute_done.
Defined.

Lemma int_reads_back_padded_str_demo :
  Py.int (Py.RawStr (Py.zfill 3 "-7")) = Ok (-7)
  /\ (forall x c, Py.int x = Ok (-7) -> canonical x = Ok c ->
                  Py.int (Py.RawStr c) = Ok (-7)).
Proof.
  apply (int_reads_back_padded_str 3 (-7) "-7").
  - lia.
  - reflexivity.
Defined.
